(** * Personal budget tracker: the ledger, its store and its aggregates

    A shallow embedding of [streamlit_app.py].  The script is one page
    render: it loads the backing CSV file into a pandas table, applies at
    most one mutation asked for by a form (add, update, delete), saves,
    and otherwise computes the summary figures.

    What is modelled, and how:
    - a table ([DataFrame]) is its list of column names and its rows in
      order, every row carrying its index label, because [.loc] and
      [drop] address rows by label and not by position;
    - a text cell is a string or the missing value NaN, a date cell is a
      timestamp or NaT, an amount is an exact rational or NaN (the
      rounding of binary floats is not modelled);
    - the backing file is its header and its lines after CSV tokenising:
      text fields are kept as text, numeric fields as numbers (see
      [CsvLine] for the fields on which this is what pandas does);
    - the date parser of pandas is a parameter of [load_data]; a concrete
      parser for the ISO formats that [to_csv] writes is given for the
      examples;
    - exceptions are values of [result]. *)

From Stdlib Require Import List String Ascii Arith NArith Bool Lia QArith Permutation Sorted.
From stdpp Require Import gmap strings.
Import ListNotations.
Local Open Scope string_scope.
Local Open Scope nat_scope.

(** ** Exceptions *)

Inductive Exn : Type :=
| ValueError            (* pandas: shape mismatch when building a frame *)
| KeyError              (* pandas: label not found *)
| ParserError           (* pandas: to_datetime with errors='raise' *)
| StreamlitAPIException (* widget value outside its bounds *).

Inductive result (A : Type) : Type :=
| Ok (a : A)
| Raise (e : Exn).
Arguments Ok {A} a.
Arguments Raise {A} e.

Definition bind {A B : Type} (c : result A) (k : A -> result B) : result B :=
  match c with
  | Ok a => k a
  | Raise e => Raise e
  end.

Notation "'do' x <- c ; k" := (bind c (fun x => k))
  (at level 10, x name, c at level 100, k at level 200).

Fixpoint mapM {A B : Type} (f : A -> result B) (l : list A) : result (list B) :=
  match l with
  | [] => Ok []
  | x :: l' => do y <- f x; do ys <- mapM f l'; Ok (y :: ys)
  end.

(** ** Timestamps *)

(** A pandas Timestamp, kept as its calendar fields and the seconds since
    midnight. *)
Record Timestamp : Type := mkTimestamp {
  year : N;
  month : N;
  day : N;
  secs : N
}.

Local Open Scope N_scope.

Definition is_leap (y : N) : bool :=
  ((y mod 4 =? 0) && negb (y mod 100 =? 0)) || (y mod 400 =? 0).

Definition days_in_month (y m : N) : N :=
  match m with
  | 1 | 3 | 5 | 7 | 8 | 10 | 12 => 31
  | 4 | 6 | 9 | 11 => 30
  | 2 => if is_leap y then 29 else 28
  | _ => 0
  end.

(** The timestamps pandas can hold: a real calendar day, in a year wholly
    inside the nanosecond range (1677-09-21 to 2262-04-11). *)
Definition ts_valid (t : Timestamp) : bool :=
  (1678 <=? year t) && (year t <=? 2261) &&
  (1 <=? month t) && (month t <=? 12) &&
  (1 <=? day t) && (day t <=? days_in_month (year t) (month t)) &&
  (secs t <? 86400).

(** Chronological rank: on valid timestamps it orders as time does. *)
Definition ts_ord (t : Timestamp) : N :=
  ((year t * 13 + month t) * 32 + day t) * 86400 + secs t.

(** [Series.dt.normalize()] and [pd.to_datetime(date)]: midnight of the day. *)
Definition normalize (t : Timestamp) : Timestamp :=
  {| year := year t; month := month t; day := day t; secs := 0 |}.

Definition ts_eqb (a b : Timestamp) : bool :=
  (year a =? year b) && (month a =? month b) && (day a =? day b) && (secs a =? secs b).

(** *** Printing *)

Definition digit (n : N) : ascii := ascii_of_N (48 + n).

Definition pad2 (n : N) : list ascii := [digit (n / 10 mod 10); digit (n mod 10)].

Definition pad4 (n : N) : list ascii :=
  [digit (n / 1000 mod 10); digit (n / 100 mod 10); digit (n / 10 mod 10); digit (n mod 10)].

Definition dash : ascii := "-"%char.
Definition colon : ascii := ":"%char.
Definition space : ascii := " "%char.

(** [strftime('%Y-%m')], which is also [dt.to_period("M").astype(str)]. *)
Definition strftime_Ym (t : Timestamp) : string :=
  string_of_list_ascii (pad4 (year t) ++ dash :: pad2 (month t)).

Definition strftime_Ymd (t : Timestamp) : list ascii :=
  pad4 (year t) ++ dash :: pad2 (month t) ++ dash :: pad2 (day t).

Definition strftime_HMS (t : Timestamp) : list ascii :=
  pad2 (secs t / 3600) ++ colon :: pad2 (secs t / 60 mod 60) ++ colon :: pad2 (secs t mod 60).

(** How [to_csv] writes one timestamp: the day alone when every timestamp
    of the column is at midnight ([dates_only]), day and time otherwise. *)
Definition format_timestamp (dates_only : bool) (t : Timestamp) : string :=
  string_of_list_ascii
    (if dates_only then strftime_Ymd t else strftime_Ymd t ++ space :: strftime_HMS t).

(** *** A parser for the ISO formats *)

Definition digit_val (c : ascii) : option N :=
  let n := N_of_ascii c in
  if (48 <=? n) && (n <=? 57) then Some (n - 48) else None.

Definition num2 (a b : ascii) : option N :=
  match digit_val a, digit_val b with
  | Some x, Some y => Some (10 * x + y)
  | _, _ => None
  end.

Definition num4 (a b c d : ascii) : option N :=
  match num2 a b, num2 c d with
  | Some x, Some y => Some (100 * x + y)
  | _, _ => None
  end.

Definition check_valid (t : Timestamp) : option Timestamp :=
  if ts_valid t then Some t else None.

Definition parse_Ymd (y1 y2 y3 y4 s1 m1 m2 s2 d1 d2 : ascii) (sec : N) : option Timestamp :=
  if Ascii.eqb s1 dash && Ascii.eqb s2 dash then
    match num4 y1 y2 y3 y4, num2 m1 m2, num2 d1 d2 with
    | Some y, Some m, Some d => check_valid (mkTimestamp y m d sec)
    | _, _, _ => None
    end
  else None.

Definition parse_HMS (h1 h2 s1 m1 m2 s2 c1 c2 : ascii) : option N :=
  if Ascii.eqb s1 colon && Ascii.eqb s2 colon then
    match num2 h1 h2, num2 m1 m2, num2 c1 c2 with
    | Some h, Some m, Some s =>
        if (h <? 24) && (m <? 60) && (s <? 60) then Some (h * 3600 + m * 60 + s) else None
    | _, _, _ => None
    end
  else None.

(** Reads "YYYY-MM-DD" and "YYYY-MM-DD HH:MM:SS"; anything else, and any
    day that is not on the calendar, is no date. *)
Definition iso_datetime (s : string) : option Timestamp :=
  match list_ascii_of_string s with
  | [y1; y2; y3; y4; s1; m1; m2; s2; d1; d2] =>
      parse_Ymd y1 y2 y3 y4 s1 m1 m2 s2 d1 d2 0
  | [y1; y2; y3; y4; s1; m1; m2; s2; d1; d2; sp; h1; h2; c1; n1; n2; c2; e1; e2] =>
      if Ascii.eqb sp space then
        match parse_HMS h1 h2 c1 n1 n2 c2 e1 e2 with
        | Some sec => parse_Ymd y1 y2 y3 y4 s1 m1 m2 s2 d1 d2 sec
        | None => None
        end
      else None
  | _ => None
  end.

(** ** Cells, rows and tables *)

(** A cell of a text column: a string, or the missing value. *)
Inductive Cell : Type :=
| NaN
| Str (s : string).

(** A cell of the Date column: text as [read_csv] leaves it, a timestamp
    once [to_datetime] has run, or the missing value (NaN or NaT). *)
Inductive DateCell : Type :=
| NaT
| Text (s : string)
| Time (t : Timestamp).

Record Row : Type := mkRow {
  Date : DateCell;
  Type_ : Cell;
  Amount : option Q;
  Category : Cell;
  Month : Cell
}.

Definition set_Date (d : DateCell) (r : Row) : Row :=
  {| Date := d; Type_ := Type_ r; Amount := Amount r; Category := Category r; Month := Month r |}.
Definition set_Type (c : Cell) (r : Row) : Row :=
  {| Date := Date r; Type_ := c; Amount := Amount r; Category := Category r; Month := Month r |}.
Definition set_Amount (a : option Q) (r : Row) : Row :=
  {| Date := Date r; Type_ := Type_ r; Amount := a; Category := Category r; Month := Month r |}.
Definition set_Category (c : Cell) (r : Row) : Row :=
  {| Date := Date r; Type_ := Type_ r; Amount := Amount r; Category := c; Month := Month r |}.
Definition set_Month (c : Cell) (r : Row) : Row :=
  {| Date := Date r; Type_ := Type_ r; Amount := Amount r; Category := Category r; Month := c |}.

(** The row pandas makes when [.loc] is assigned at a label that is not in
    the index: every cell missing. *)
Definition missing_row : Row :=
  {| Date := NaT; Type_ := NaN; Amount := None; Category := NaN; Month := NaN |}.

(** A table: the column names in order and the rows in order, each with
    its index label.  The [Month] cell of a row is part of the table only
    when "Month" is one of the columns. *)
Record DataFrame : Type := mkDataFrame {
  columns : list string;
  rows : list (nat * Row)
}.

Definition base_columns : list string := ["Date"; "Type"; "Amount"; "Category"].

Definition index (df : DataFrame) : list nat := List.map fst (rows df).
Definition values (df : DataFrame) : list Row := List.map snd (rows df).
Definition len (df : DataFrame) : nat := List.length (rows df).

(** [df.empty] *)
Definition empty (df : DataFrame) : bool :=
  match columns df, rows df with
  | [], _ | _, [] => true
  | _, _ => false
  end.

Definition has_column (name : string) (cols : list string) : bool :=
  List.existsb (String.eqb name) cols.

(** [Series == text]: a missing cell equals nothing. *)
Definition cell_is (s : string) (c : Cell) : bool :=
  match c with
  | Str x => String.eqb x s
  | NaN => false
  end.

(** [df[mask]]: the rows where the mask holds, labels kept. *)
Definition select (mask : Row -> bool) (df : DataFrame) : DataFrame :=
  {| columns := columns df; rows := List.filter (fun ir => mask (snd ir)) (rows df) |}.

(** Labels 0, 1, 2, ... in row order. *)
Fixpoint enumerate_from {A : Type} (i : nat) (l : list A) : list (nat * A) :=
  match l with
  | [] => []
  | x :: l' => (i, x) :: enumerate_from (S i) l'
  end.

(** [df.reset_index(drop=True)] *)
Definition reset_index (df : DataFrame) : DataFrame :=
  {| columns := columns df; rows := enumerate_from 0%nat (values df) |}.

(** [pd.concat([df, new_row], ignore_index=True)], for frames with the same
    columns. *)
Definition concat_ignore_index (df new_row : DataFrame) : DataFrame :=
  {| columns := columns df; rows := enumerate_from 0%nat (values df ++ values new_row) |}.

(** [df.dropna(subset=["Date"])] *)
Definition notna_Date (r : Row) : bool :=
  match Date r with
  | NaT => false
  | _ => true
  end.

Definition dropna_Date (df : DataFrame) : DataFrame := select notna_Date df.

(** [df.loc[label, column] = v], the column given by its setter.  A label
    that is in the index is overwritten in place; a label that is not
    enlarges the table by a row at the end. *)
Definition loc_set (label : nat) (setter : Row -> Row) (df : DataFrame) : DataFrame :=
  if List.existsb (Nat.eqb label) (index df) then
    {| columns := columns df;
       rows := List.map (fun ir => if Nat.eqb (fst ir) label then (fst ir, setter (snd ir)) else ir)
                        (rows df) |}
  else
    {| columns := columns df; rows := rows df ++ [(label, setter missing_row)] |}.

(** [df.drop(label)] *)
Definition drop (label : nat) (df : DataFrame) : result DataFrame :=
  if List.existsb (Nat.eqb label) (index df) then
    Ok {| columns := columns df;
          rows := List.filter (fun ir => negb (Nat.eqb (fst ir) label)) (rows df) |}
  else Raise KeyError.

(** [df_display.index[i]] *)
Definition index_at (df : DataFrame) (i : nat) : result nat :=
  match nth_error (index df) i with
  | Some label => Ok label
  | None => Raise KeyError
  end.

(** [df_display.loc[label]] *)
Definition loc (label : nat) (df : DataFrame) : result Row :=
  match List.find (fun ir => Nat.eqb (fst ir) label) (rows df) with
  | Some ir => Ok (snd ir)
  | None => Raise KeyError
  end.

(** *** Sorting by date, latest first

    [df.sort_values(by="Date", ascending=False)]: missing dates go last.
    Here rows with the same date keep their order.  pandas leaves the
    order of such rows to the sorting algorithm, which keeps it on short
    tables only; what is proved of the display order is therefore stated
    either for any arrangement of equal dates (a sorted rearrangement) or
    for rows of distinct dates, where the order is the only one. *)
Definition date_rank (r : Row) : N :=
  match Date r with
  | Time t => N.succ (ts_ord t)
  | _ => 0
  end.

Fixpoint insert_desc (x : nat * Row) (l : list (nat * Row)) : list (nat * Row) :=
  match l with
  | [] => [x]
  | y :: l' =>
      if date_rank (snd y) <=? date_rank (snd x) then x :: l else y :: insert_desc x l'
  end.

Fixpoint sort_desc (l : list (nat * Row)) : list (nat * Row) :=
  match l with
  | [] => []
  | x :: l' => insert_desc x (sort_desc l')
  end.

Definition sort_values_Date_desc (df : DataFrame) : DataFrame :=
  {| columns := columns df; rows := sort_desc (rows df) |}.

(** [df["Month"] = df["Date"].dt.to_period("M").astype(str)]: the column
    is added at the end when it is new, and filled for every row. *)
Definition month_of (d : DateCell) : Cell :=
  match d with
  | Time t => Str (strftime_Ym t)
  | _ => Str "NaT"
  end.

Definition assign_Month (df : DataFrame) : DataFrame :=
  {| columns := if has_column "Month" (columns df) then columns df else columns df ++ ["Month"];
     rows := List.map (fun ir => (fst ir, set_Month (month_of (Date (snd ir))) (snd ir))) (rows df) |}.

(** ** The backing file *)

(** One line of the file, tokenised.  A line has a field for each column
    the app ever writes; [f_Month] is read and written only under a header
    that lists Month.  An empty field is the empty string, or [None] for
    the amount.

    The amount field is kept as the number its decimal text stands for.
    Writing a float and reading the text back returns the same number for
    whole amounts of fewer than fifteen digits ([whole_amount] below);
    other floats can come back changed in their last digits, which this
    model does not show.  A text field is kept as text.  [read_csv] reads a
    column whose fields all look like numbers or truth values as numbers or
    truth values, which this model does not show either.  A statement that
    reads back what was written is made for [whole_amount] and
    [plain_text] only. *)
Record CsvLine : Type := mkCsvLine {
  f_Date : string;
  f_Type : string;
  f_Amount : option Q;
  f_Category : string;
  f_Month : string
}.

Record CsvFile : Type := mkCsvFile {
  header : list string;
  lines : list CsvLine
}.

(** The strings [read_csv] takes for a missing value by default. *)
Definition na_values : list string :=
  [""; "#N/A"; "#N/A N/A"; "#NA"; "-1.#IND"; "-1.#QNAN"; "-NaN"; "-nan"; "1.#IND";
   "1.#QNAN"; "<NA>"; "N/A"; "NA"; "NULL"; "NaN"; "None"; "n/a"; "nan"; "null"].

Definition is_na (s : string) : bool := List.existsb (String.eqb s) na_values.

Definition read_text (s : string) : Cell := if is_na s then NaN else Str s.

Definition read_date (s : string) : DateCell := if is_na s then NaT else Text s.

Definition read_line (with_month : bool) (l : CsvLine) : Row :=
  {| Date := read_date (f_Date l);
     Type_ := read_text (f_Type l);
     Amount := f_Amount l;
     Category := read_text (f_Category l);
     Month := if with_month then read_text (f_Month l) else NaN |}.

(** [pd.read_csv(DATA_FILE)]: the header gives the columns, the lines are
    labelled 0, 1, 2, ... *)
Definition read_csv (f : CsvFile) : DataFrame :=
  {| columns := header f;
     rows := enumerate_from 0%nat (List.map (read_line (has_column "Month" (header f))) (lines f)) |}.

(** A missing cell is written as an empty field. *)
Definition write_text (c : Cell) : string :=
  match c with
  | Str s => s
  | NaN => ""
  end.

Definition at_midnight (r : Row) : bool :=
  match Date r with
  | Time t => secs t =? 0
  | _ => true
  end.

Definition write_date (dates_only : bool) (d : DateCell) : string :=
  match d with
  | Time t => format_timestamp dates_only t
  | Text s => s
  | NaT => ""
  end.

Definition write_line (dates_only with_month : bool) (r : Row) : CsvLine :=
  {| f_Date := write_date dates_only (Date r);
     f_Type := write_text (Type_ r);
     f_Amount := Amount r;
     f_Category := write_text (Category r);
     f_Month := if with_month then write_text (Month r) else "" |}.

(** [df.to_csv(DATA_FILE, index=False)]: header, then the rows in the order
    of the table, without their labels. *)
Definition to_csv (df : DataFrame) : CsvFile :=
  {| header := columns df;
     lines := List.map (write_line (List.forallb at_midnight (values df))
                                   (has_column "Month" (columns df)))
                       (values df) |}.

(** ** Transaction store *)

Inductive ErrorsMode : Type := errors_raise | errors_coerce.

Section Store.

(** What the date parser of pandas makes of one text field. *)
Variable parse_datetime : string -> option Timestamp.

(** [pd.to_datetime(cell, errors=...)] *)
Definition to_datetime (errors : ErrorsMode) (d : DateCell) : result DateCell :=
  match d with
  | Text s =>
      match parse_datetime s with
      | Some t => Ok (Time t)
      | None =>
          match errors with
          | errors_coerce => Ok NaT
          | errors_raise => Raise ParserError
          end
      end
  | _ => Ok d
  end.

(** [df["Date"] = pd.to_datetime(df["Date"], errors=...)] *)
Definition convert_Date (errors : ErrorsMode) (df : DataFrame) : result DataFrame :=
  if has_column "Date" (columns df) then
    do rs <- mapM (fun ir => do d <- to_datetime errors (Date (snd ir));
                             Ok (fst ir, set_Date d (snd ir)))
                  (rows df);
    Ok {| columns := columns df; rows := rs |}
  else Raise KeyError.

(** The state of the file system is the backing file, if it exists. *)
Definition load_data (file : option CsvFile) : result DataFrame :=
  match file with
  | Some f =>
      let df := read_csv f in
      do df <- convert_Date errors_coerce df;
      let df := dropna_Date df in
      Ok df
  | None => Ok {| columns := base_columns; rows := [] |}
  end.

Definition save_data (df : DataFrame) : option CsvFile := Some (to_csv df).

End Store.

(** ** Aggregates *)

Local Open Scope Q_scope.

(** [Series.sum()]: missing amounts are skipped.  Amounts are added as
    exact rationals: the rounding of float addition, and with it the effect
    of the order of the rows on a total, is outside the model. *)
Definition add_skipna (a : option Q) (acc : Q) : Q :=
  match a with
  | Some q => q + acc
  | None => acc
  end.

Definition sum (s : list (option Q)) : Q := List.fold_right add_skipna 0 s.

Definition is_Income (r : Row) : bool := cell_is "Income" (Type_ r).
Definition is_Expense (r : Row) : bool := cell_is "Expense" (Type_ r).

Definition Amount_sum (df : DataFrame) : Q := sum (List.map Amount (values df)).

(** [df[df["Type"] == "Income"]["Amount"].sum()] and its like *)
Definition total_income (df : DataFrame) : Q := Amount_sum (select is_Income df).
Definition total_expense (df : DataFrame) : Q := Amount_sum (select is_Expense df).
Definition balance (df : DataFrame) : Q := total_income df - total_expense df.

(** [df[df["Date"].dt.normalize() == today]] *)
Definition on_day (today : Timestamp) (r : Row) : bool :=
  match Date r with
  | Time t => ts_eqb (normalize t) today
  | _ => false
  end.

Definition df_today (today : Timestamp) (df : DataFrame) : DataFrame := select (on_day today) df.

(** [df[(df["Type"] == "Expense") & (df["Month"] == current_month)]["Amount"].sum()] *)
Definition monthly_expense (current_month : string) (df : DataFrame) : Q :=
  Amount_sum (select (fun r => is_Expense r && cell_is current_month (Month r)) df).

Inductive BudgetStatus : Type := WithinBudget | OverBudget.

(** [if monthly_expense > limit: st.error(...) else: st.success(...)] *)
Definition budget_status (monthly_expense limit : Q) : BudgetStatus :=
  if Qle_bool monthly_expense limit then WithinBudget else OverBudget.

(** [groupby(key)["Amount"].sum()]: one entry per key that occurs; rows
    whose key is missing belong to no group. *)
Definition groupby_sum {K : Type} `{Countable K} (key : Row -> option K) (rs : list Row)
  : gmap K Q :=
  List.fold_right
    (fun r m =>
       match key r with
       | Some k => <[k := add_skipna (Amount r) (default 0 (m !! k))]> m
       | None => m
       end)
    ∅ rs.

Definition Category_key (r : Row) : option string :=
  match Category r with
  | Str c => Some c
  | NaN => None
  end.

Definition Month_Type_key (r : Row) : option (string * string) :=
  match Month r, Type_ r with
  | Str m, Str t => Some (m, t)
  | _, _ => None
  end.

(** [df[df["Type"] == "Expense"].groupby("Category")["Amount"].sum()] *)
Definition expense_by_category (df : DataFrame) : gmap string Q :=
  groupby_sum Category_key (values (select is_Expense df)).

(** [df.groupby(["Month", "Type"])["Amount"].sum()] *)
Definition monthly_groups (df : DataFrame) : gmap (string * string) Q :=
  groupby_sum Month_Type_key (values df).

(** [.unstack().fillna(0)]: a table with a row for every month that has a
    group and a column for every type that has a group; a cell without a
    group of its own reads 0.  A month or a type that has no group at all
    has no cell. *)
Definition monthly_summary (df : DataFrame) (m t : string) : option Q :=
  let keys := List.map fst (map_to_list (monthly_groups df)) in
  if List.existsb (fun k => String.eqb (fst k) m) keys
     && List.existsb (fun k => String.eqb (snd k) t) keys
  then Some (default 0 (monthly_groups df !! (m, t)))
  else None.

(** ** The page *)

Inductive TxType : Type := Income | Expense.

(** The options of the selectbox. *)
Definition type_name (t : TxType) : string :=
  match t with
  | Income => "Income"
  | Expense => "Expense"
  end.

(** What the user did on the page: nothing, or one form submitted with the
    values of its widgets. *)
Inductive Event : Type :=
| NoEvent
| AddSubmitted (amount : Q) (type_ : TxType) (category : string) (date : Timestamp)
| UpdateSubmitted (index_to_edit : nat) (new_amount : Q) (new_type : TxType)
                  (new_category : string) (new_date : Timestamp)
| DeleteSubmitted (index_to_edit : nat).

(** [st.number_input(..., min_value=, max_value=)]: the bounds are kept
    by the input field of the browser, where a value outside them cannot
    be entered; the script itself does not test the value.  A run on such a
    value is given no result here. *)
Definition number_input (min_value max_value : option Q) (v : Q) : result Q :=
  let above := match min_value with Some lo => Qle_bool lo v | None => true end in
  let below := match max_value with Some hi => Qle_bool v hi | None => true end in
  if above && below then Ok v else Raise StreamlitAPIException.

(** The widget of the row number, [min_value=0] and
    [max_value=len(df_display)-1].  The script takes the number as it
    comes: a number past the end of the table finds no row at line 102,
    where [df_display.loc] raises KeyError. *)
Definition number_input_index (max_value : nat) (v : nat) : result nat := Ok v.

(** [pd.DataFrame([[date, type_, amount, category]], columns=cols)]: four
    values need four column names. *)
Definition new_row_frame (date : Timestamp) (type_ : TxType) (amount : Q) (category : string)
                         (cols : list string) : result DataFrame :=
  if (List.length cols =? 4)%nat then
    Ok {| columns := cols;
          rows := [(0%nat, {| Date := Time (normalize date);
                              Type_ := Str (type_name type_);
                              Amount := Some amount;
                              Category := Str category;
                              Month := NaN |})] |}
  else Raise ValueError.

(** The figures and tables a render shows. *)
Record View : Type := mkView {
  v_total_income : Q;
  v_total_expense : Q;
  v_balance : Q;
  v_today_income : Q;
  v_today_expense : Q;
  v_today_balance : Q;
  v_new_transactions_today : nat;
  v_monthly_expense : Q;
  v_budget : BudgetStatus;
  v_df_display : option DataFrame;
  v_monthly_groups : gmap (string * string) Q;
  v_expense_by_category : gmap string Q
}.

Inductive Page : Type :=
| Rerun                  (* a form was handled: [st.experimental_rerun()] *)
| Rendered (v : View).

(** [ax.pie(sizes, ...)] of matplotlib: a negative size raises ValueError,
    and so do sizes that add up to 0. *)
Definition pie (sizes : list Q) : result unit :=
  if List.existsb (fun x => negb (Qle_bool 0 x)) sizes then Raise ValueError
  else if Qeq_bool (List.fold_right Qplus 0 sizes) 0 then Raise ValueError
  else Ok tt.

(** Lines 141 to 153: the pie is drawn when the breakdown has an entry. *)
Definition pie_chart (expense_by_category : gmap string Q) : result unit :=
  match List.map snd (map_to_list expense_by_category) with
  | [] => Ok tt
  | sizes => pie sizes
  end.

(** The update branch of edit_form, on the sorted table. *)
Definition update_rows (df df_display : DataFrame) (index_to_edit : nat)
    (new_amount : Q) (new_type : TxType) (new_category : string) (new_date : Timestamp)
  : result DataFrame :=
  do l1 <- index_at df_display index_to_edit;
  let df := loc_set l1 (set_Amount (Some new_amount)) df in
  do l2 <- index_at df_display index_to_edit;
  let df := loc_set l2 (set_Type (Str (type_name new_type))) df in
  do l3 <- index_at df_display index_to_edit;
  let df := loc_set l3 (set_Category (Str new_category)) df in
  do l4 <- index_at df_display index_to_edit;
  let df := loc_set l4 (set_Date (Time (normalize new_date))) df in
  Ok df.

(** The delete branch of edit_form, on the sorted table. *)
Definition delete_row (df df_display : DataFrame) (index_to_edit : nat) : result DataFrame :=
  do l <- index_at df_display index_to_edit;
  drop l df.

Section Script.

Variable parse_datetime : string -> option Timestamp.

(** Lines 48 and 49: the dates converted once more, rows without a date
    dropped. *)
Definition clean_dates (df : DataFrame) : result DataFrame :=
  do df <- convert_Date parse_datetime errors_coerce df;
  Ok (dropna_Date df).

(** The figures of a render: the summary and today's figures come from
    the cleaned table [df], the budget check from the table with its Month
    column [df_month], the charts from the table as the transaction
    section leaves it [df_charts]. *)
Definition view_of (now : Timestamp) (limit : Q) (df df_month df_charts : DataFrame)
                   (df_display : option DataFrame) : View :=
  let today := normalize now in
  let current_month := strftime_Ym now in
  let today_df := df_today today df in
  {| v_total_income := total_income df;
     v_total_expense := total_expense df;
     v_balance := balance df;
     v_today_income := total_income today_df;
     v_today_expense := total_expense today_df;
     v_today_balance := total_income today_df - total_expense today_df;
     v_new_transactions_today := len today_df;
     v_monthly_expense := monthly_expense current_month df_month;
     v_budget := budget_status (monthly_expense current_month df_month) limit;
     v_df_display := df_display;
     v_monthly_groups := if empty df_charts then ∅ else monthly_groups (assign_Month df_charts);
     v_expense_by_category := expense_by_category df_charts |}.

(** The end of the script, lines 131 to 153: the charts.  The figures
    above them are on the page by then; the run ends in the exception of
    the pie, if it raises one, and writes nothing. *)
Definition charts (file : option CsvFile) (v : View) : result (option CsvFile * Page) :=
  do drawn <- pie_chart (v_expense_by_category v);
  Ok (file, Rendered v).

(** One run of the script on the file system [file], at the time [now],
    with the budget limit [limit] in its widget and the event [ev].  On a
    table without rows the edit form is not on the page, and the script
    goes on to the charts whatever the event. *)
Definition render (file : option CsvFile) (now : Timestamp) (limit : Q) (ev : Event)
  : result (option CsvFile * Page) :=
  do df <- load_data parse_datetime file;
  match ev with
  | AddSubmitted amount type_ category date =>
      do amount <- number_input (Some 0) None amount;
      do new_row <- new_row_frame date type_ amount category (columns df);
      let df := concat_ignore_index df new_row in
      Ok (save_data df, Rerun)
  | _ =>
      do df <- clean_dates df;
      let df_month := assign_Month df in
      if empty df_month then
        charts file (view_of now limit df df_month df_month None)
      else
        let df_sorted := sort_values_Date_desc df_month in
        let df_display := reset_index df_sorted in
        match ev with
        | UpdateSubmitted index_to_edit new_amount new_type new_category new_date =>
            do index_to_edit <- number_input_index (len df_display - 1) index_to_edit;
            do row <- loc index_to_edit df_display;
            do new_amount <- number_input None None new_amount;
            do df' <- update_rows df_sorted df_display index_to_edit
                                  new_amount new_type new_category new_date;
            Ok (save_data df', Rerun)
        | DeleteSubmitted index_to_edit =>
            do index_to_edit <- number_input_index (len df_display - 1) index_to_edit;
            do row <- loc index_to_edit df_display;
            do df' <- delete_row df_sorted df_display index_to_edit;
            Ok (save_data df', Rerun)
        | _ =>
            charts file (view_of now limit df df_month df_sorted (Some df_display))
        end
  end.

End Script.

(** ** Vocabulary of the theorems

    [load_spec] follows the words of the specification and is compared
    with the code above; [sum_where] is the sum of the code taken in one
    pass; the other definitions name parts of the code that the statements
    speak about.  The figures are spelled out without the code further
    down, under "Plain statements of the figures". *)

(** The date of a line, if it has one that parses. *)
Definition parsed_date (parse_datetime : string -> option Timestamp) (l : CsvLine)
  : option Timestamp :=
  if is_na (f_Date l) then None else parse_datetime (f_Date l).

(** What [to_datetime] makes of a cell when errors are coerced. *)
Definition coerced (parse_datetime : string -> option Timestamp) (d : DateCell) : DateCell :=
  match d with
  | Text s =>
      match parse_datetime s with
      | Some t => Time t
      | None => NaT
      end
  | _ => d
  end.

(** "parses each row's date, discarding rows with unparseable dates": the
    lines are taken one by one, line [i] of the file keeps [i] as its
    label when its date parses and is left out when it does not. *)
Fixpoint load_spec (parse_datetime : string -> option Timestamp) (with_month : bool)
                   (i : nat) (ls : list CsvLine) : list (nat * Row) :=
  match ls with
  | [] => []
  | l :: ls' =>
      match parsed_date parse_datetime l with
      | Some t =>
          (i, set_Date (Time t) (read_line with_month l))
            :: load_spec parse_datetime with_month (S i) ls'
      | None => load_spec parse_datetime with_month (S i) ls'
      end
  end.

(** The logical transaction: date, type, amount and category. *)
Definition ledger_key (r : Row) : DateCell * Cell * option Q * Cell :=
  (Date r, Type_ r, Amount r, Category r).


Definition valid_date (r : Row) : bool :=
  match Date r with
  | Time t => ts_valid t
  | _ => false
  end.

(** Display order: a row never stands before a row of a later date. *)
Definition date_desc (a b : nat * Row) : Prop :=
  (date_rank (snd b) <= date_rank (snd a))%N.

(** The four assignments of the update branch, on one row. *)
Definition edited (new_amount : Q) (new_type : TxType) (new_category : string)
                  (new_date : Timestamp) (r : Row) : Row :=
  set_Date (Time (normalize new_date))
    (set_Category (Str new_category)
       (set_Type (Str (type_name new_type))
          (set_Amount (Some new_amount) r))).

(** The row the add form makes. *)
Definition added (amount : Q) (type_ : TxType) (category : string) (date : Timestamp) : Row :=
  {| Date := Time (normalize date);
     Type_ := Str (type_name type_);
     Amount := Some amount;
     Category := Str category;
     Month := NaN |}.

(** The sum of the code over the rows that a mask keeps, taken in one pass
    with the code's own [add_skipna]. *)
Fixpoint sum_where (p : Row -> bool) (rs : list Row) : Q :=
  match rs with
  | [] => 0
  | r :: rs' => if p r then add_skipna (Amount r) (sum_where p rs') else sum_where p rs'
  end.

(** [totals(ledger) -> (income, expense, balance)], lines 53 to 55. *)
Definition totals (df : DataFrame) : Q * Q * Q :=
  (total_income df, total_expense df, balance df).

(** A row of category [c], for the breakdown. *)
Definition in_category (c : string) (r : Row) : bool := cell_is c (Category r).

(** ** Ledgers and moments for the examples *)

Definition day_0301 : Timestamp := mkTimestamp 2024 3 1 0.
Definition day_0302 : Timestamp := mkTimestamp 2024 3 2 0.
Definition day_0303 : Timestamp := mkTimestamp 2024 3 3 0.
Definition mid_march : Timestamp := mkTimestamp 2024 3 15 36000.

Definition food_line : CsvLine :=
  {| f_Date := "2024-03-01"; f_Type := "Expense"; f_Amount := Some 30;
     f_Category := "Food"; f_Month := "" |}.

Definition salary_line : CsvLine :=
  {| f_Date := "2024-03-02"; f_Type := "Income"; f_Amount := Some 500;
     f_Category := "Salary"; f_Month := "" |}.

Definition rent_line : CsvLine :=
  {| f_Date := "2024-03-03"; f_Type := "Expense"; f_Amount := Some 200;
     f_Category := "Rent"; f_Month := "" |}.

(** The file after the two adds of the end-to-end scenario. *)
Definition food_salary_file : CsvFile :=
  {| header := base_columns; lines := [food_line; salary_line] |}.

Definition food_salary_rent_file : CsvFile :=
  {| header := base_columns; lines := [food_line; salary_line; rent_line] |}.

Definition food_row : Row :=
  {| Date := Time day_0301; Type_ := Str "Expense"; Amount := Some 30;
     Category := Str "Food"; Month := Str "2024-03" |}.

Definition salary_row : Row :=
  {| Date := Time day_0302; Type_ := Str "Income"; Amount := Some 500;
     Category := Str "Salary"; Month := Str "2024-03" |}.

(** The table a render shows, and the file it leaves. *)
Definition shown_rows (r : result (option CsvFile * Page)) : option (list Row) :=
  match r with
  | Ok (_, Rendered v) => option_map values (v_df_display v)
  | _ => None
  end.

Definition shown_totals (r : result (option CsvFile * Page)) : option (Q * Q * Q) :=
  match r with
  | Ok (_, Rendered v) => Some (v_total_income v, v_total_expense v, v_balance v)
  | _ => None
  end.

Definition file_after (r : result (option CsvFile * Page)) : option CsvFile :=
  match r with
  | Ok (f, _) => f
  | Raise _ => None
  end.

(** The logical content of a line of the file. *)
Definition line_key (l : CsvLine) : string * string * option Q * string :=
  (f_Date l, f_Type l, f_Amount l, f_Category l).

(** The logical content of a row once written. *)
Definition written_key (dates_only : bool) (r : Row) : string * string * option Q * string :=
  (write_date dates_only (Date r), write_text (Type_ r), Amount r, write_text (Category r)).


(** A file with one date that does not parse and one missing date. *)
Definition damaged_file : CsvFile :=
  {| header := base_columns;
     lines := [ {| f_Date := "soon"; f_Type := "Expense"; f_Amount := Some 5;
                   f_Category := "Tea"; f_Month := "" |};
                salary_line;
                {| f_Date := ""; f_Type := "Income"; f_Amount := Some 7;
                   f_Category := "Gift"; f_Month := "" |} ] |}.

(** A row whose Type is neither "Income" nor "Expense". *)
Definition bonus_row : Row :=
  {| Date := Time mid_march; Type_ := Str "Bonus"; Amount := Some 10;
     Category := Str "Work"; Month := Str "2024-03" |}.

Definition bonus_file : CsvFile :=
  {| header := base_columns;
     lines := [ {| f_Date := "2024-03-15"; f_Type := "Bonus"; f_Amount := Some 10;
                   f_Category := "Work"; f_Month := "" |} ] |}.

Definition shown_monthly_groups (r : result (option CsvFile * Page))
  : option (gmap (string * string) Q) :=
  match r with
  | Ok (_, Rendered v) => Some (v_monthly_groups v)
  | _ => None
  end.

Definition shown_today_count (r : result (option CsvFile * Page)) : option nat :=
  match r with
  | Ok (_, Rendered v) => Some (v_new_transactions_today v)
  | _ => None
  end.

(** The table with the row [r] standing between the rows [before] and
    [after]. *)
Definition with_row (cols : list string) (before : list (nat * Row)) (r : nat * Row)
                    (after : list (nat * Row)) : DataFrame :=
  {| columns := cols; rows := before ++ r :: after |}.

Definition without_row (cols : list string) (before after : list (nat * Row)) : DataFrame :=
  {| columns := cols; rows := before ++ after |}.

(** The example of the specification for the breakdown. *)
Definition salary_food_ledger : DataFrame :=
  {| columns := base_columns;
     rows := [ (0%nat, {| Date := Time (mkTimestamp 2024 1 1 0); Type_ := Str "Income";
                          Amount := Some 100; Category := Str "Salary"; Month := NaN |});
               (1%nat, {| Date := Time (mkTimestamp 2024 1 2 0); Type_ := Str "Expense";
                          Amount := Some 40; Category := Str "Food"; Month := NaN |}) ] |}.


(** ** Fields that the file gives back as they were *)

Definition is_letter (c : ascii) : bool :=
  let n := nat_of_ascii c in
  ((65 <=? n)%nat && (n <=? 90)%nat) || ((97 <=? n)%nat && (n <=? 122)%nat).

Definition is_printable (c : ascii) : bool :=
  let n := nat_of_ascii c in (32 <=? n)%nat && negb (n =? 127)%nat.

Definition lower (c : ascii) : ascii :=
  let n := nat_of_ascii c in
  if (65 <=? n)%nat && (n <=? 90)%nat then ascii_of_nat (n + 32) else c.

Fixpoint lower_string (s : string) : string :=
  match s with
  | EmptyString => EmptyString
  | String c s' => String (lower c) (lower_string s')
  end.

(** Words that start with a letter and are still read as a number or a
    truth value, in any mix of capitals. *)
Definition number_words : list string := ["inf"; "infinity"; "true"; "false"; "nan"].

(** Text that [read_csv] reads as the same text, whatever else its column
    holds: it starts with a letter, has no control character, is no marker
    of a missing value and no word for a number or a truth value. *)
Definition plain_text (s : string) : bool :=
  match s with
  | EmptyString => false
  | String c _ =>
      is_letter c
      && List.forallb is_printable (list_ascii_of_string s)
      && negb (is_na s)
      && negb (List.existsb (String.eqb (lower_string s)) number_words)
  end.


(** An amount whose decimal text is read back as the same float: missing,
    or a whole number of fewer than fifteen digits. *)
Definition whole_amount (a : option Q) : bool :=
  match a with
  | None => true
  | Some q => (Qden q =? 1)%positive && (Z.abs (Qnum q) <? 100000000000000)%Z
  end.

(** ** Plain statements of the figures

    These do not use the masks and the sum of the code: a row is tested
    and an amount is added here in so many words. *)

Definition typed (s : string) (r : Row) : bool :=
  match Type_ r with
  | Str x => String.eqb x s
  | NaN => false
  end.

Definition categorised (c : string) (r : Row) : bool :=
  match Category r with
  | Str x => String.eqb x c
  | NaN => false
  end.

Definition of_month (m : string) (r : Row) : bool :=
  match Month r with
  | Str x => String.eqb x m
  | NaN => false
  end.

(** A row that belongs to a group of the monthly series: its Month and its
    Type are text. *)
Definition grouped (r : Row) : bool :=
  match Month r, Type_ r with
  | Str _, Str _ => true
  | _, _ => false
  end.

(** The amounts of the rows that qualify, added up; a missing amount adds
    nothing. *)
Fixpoint amount_total (p : Row -> bool) (rs : list Row) : Q :=
  match rs with
  | [] => 0
  | r :: rs' =>
      if p r then
        match Amount r with
        | Some q => q + amount_total p rs'
        | None => amount_total p rs'
        end
      else amount_total p rs'
  end.

(** A row dated on the calendar day of [now], whatever the time of day. *)
Definition same_day (now : Timestamp) (r : Row) : bool :=
  match Date r with
  | Time t => (year t =? year now)%N && (month t =? month now)%N && (day t =? day now)%N
  | _ => false
  end.

(** A row dated in the calendar month of [now]. *)
Definition same_month (now : Timestamp) (r : Row) : bool :=
  match Date r with
  | Time t => (year t =? year now)%N && (month t =? month now)%N
  | _ => false
  end.

(** ** Display order *)

(** Display order on rows without their labels. *)
Definition later_first (a b : Row) : Prop := (date_rank b <= date_rank a)%N.

(** Display order of rows of distinct dates. *)
Definition strictly_later_first (a b : nat * Row) : Prop :=
  (date_rank (snd b) < date_rank (snd a))%N.

(** The table on the page, lines 83, 95 and 96. *)
Definition table_shown (df : DataFrame) : DataFrame :=
  reset_index (sort_values_Date_desc (assign_Month df)).

(** ** More ledgers for the examples *)

(** A file whose first line has no date: the one row it loads has label 1. *)
Definition gap_file : CsvFile :=
  {| header := base_columns;
     lines := [ {| f_Date := "soon"; f_Type := "Expense"; f_Amount := Some 5;
                   f_Category := "Tea"; f_Month := "" |};
                salary_line ] |}.

(** A file already in display order. *)
Definition salary_food_file : CsvFile :=
  {| header := base_columns; lines := [salary_line; food_line] |}.

(** A line of the file that [load_data] keeps. *)
Definition has_date (parse_datetime : string -> option Timestamp) (l : CsvLine) : bool :=
  match parsed_date parse_datetime l with
  | Some _ => true
  | None => false
  end.

(** A file whose second line has no date. *)
Definition undated_tail_file : CsvFile :=
  {| header := base_columns;
     lines := [ salary_line;
                {| f_Date := "soon"; f_Type := "Expense"; f_Amount := Some 5;
                   f_Category := "Tea"; f_Month := "" |} ] |}.

(** A file whose one line is a refund booked as a negative expense. *)
Definition refund_file : CsvFile :=
  {| header := base_columns;
     lines := [ {| f_Date := "2024-03-01"; f_Type := "Expense"; f_Amount := Some (-5);
                   f_Category := "Food"; f_Month := "" |} ] |}.

(** A morning on the first of March. *)
Definition first_of_march_morning : Timestamp := mkTimestamp 2024 3 1 36000.

(** The ledger of the three example lines, as loaded. *)
Definition food_salary_rent_ledger : DataFrame :=
  {| columns := base_columns;
     rows := load_spec iso_datetime false 0 (lines food_salary_rent_file) |}.
(** * Properties *)

(** ** Dates: printing and reading back *)

Local Open Scope N_scope.

Ltac n_arith := zify; Z.to_euclidean_division_equations; lia.

Lemma digit_val_digit (n : N) : n < 10 -> digit_val (digit n) = Some n.
Proof.
  intros H. rewrite <- (N2Nat.id n).
  assert (N.to_nat n < 10)%nat as Hk by lia.
  generalize dependent (N.to_nat n). intros k Hk.
  do 10 (destruct k as [| k]; [reflexivity |]).
  lia.
Qed.

Lemma num2_pad2 (n : N) :
  n < 100 -> num2 (digit (n / 10 mod 10)) (digit (n mod 10)) = Some n.
Proof.
  intros H. unfold num2.
  rewrite !digit_val_digit by n_arith.
  f_equal. n_arith.
Qed.

Lemma num4_pad4 (n : N) :
  n < 10000 ->
  num4 (digit (n / 1000 mod 10)) (digit (n / 100 mod 10))
       (digit (n / 10 mod 10)) (digit (n mod 10)) = Some n.
Proof.
  intros H. unfold num4, num2.
  rewrite !digit_val_digit by n_arith.
  f_equal. n_arith.
Qed.

Lemma ts_valid_bounds (t : Timestamp) :
  ts_valid t = true ->
  year t < 10000 /\ month t < 100 /\ day t < 100 /\ secs t < 86400.
Proof.
  unfold ts_valid. rewrite !andb_true_iff.
  intros [[[[[[H1 H2] H3] H4] H5] H6] H7].
  apply N.leb_le in H2, H4, H6. apply N.ltb_lt in H7.
  assert (days_in_month (year t) (month t) <= 31).
  { unfold days_in_month.
    repeat match goal with
           | |- context [match ?x with _ => _ end] => destruct x
           end; lia. }
  lia.
Qed.

Lemma parse_Ymd_strftime (t : Timestamp) :
  ts_valid t = true ->
  parse_Ymd (digit (year t / 1000 mod 10)) (digit (year t / 100 mod 10))
            (digit (year t / 10 mod 10)) (digit (year t mod 10)) dash
            (digit (month t / 10 mod 10)) (digit (month t mod 10)) dash
            (digit (day t / 10 mod 10)) (digit (day t mod 10)) (secs t) = Some t.
Proof.
  intros Hv. destruct (ts_valid_bounds t Hv) as (Hy & Hm & Hd & _).
  unfold parse_Ymd. simpl.
  rewrite num4_pad4, !num2_pad2 by assumption.
  unfold check_valid. destruct t as [y m d s]; simpl in *. now rewrite Hv.
Qed.

Lemma parse_HMS_strftime (s : N) :
  s < 86400 ->
  parse_HMS (digit (s / 3600 / 10 mod 10)) (digit (s / 3600 mod 10)) colon
            (digit (s / 60 mod 60 / 10 mod 10)) (digit (s / 60 mod 60 mod 10)) colon
            (digit (s mod 60 / 10 mod 10)) (digit (s mod 60 mod 10)) = Some s.
Proof.
  intros H. unfold parse_HMS. simpl.
  rewrite !num2_pad2 by n_arith.
  replace ((s / 3600 <? 24) && (s / 60 mod 60 <? 60) && (s mod 60 <? 60)) with true.
  - f_equal. n_arith.
  - symmetry. rewrite !andb_true_iff, !N.ltb_lt. n_arith.
Qed.

(** The ISO parser reads back what [to_csv] writes, in both formats. *)
Lemma iso_datetime_format (t : Timestamp) :
  ts_valid t = true ->
  iso_datetime (format_timestamp false t) = Some t /\
  (secs t = 0 -> iso_datetime (format_timestamp true t) = Some t).
Proof.
  intros Hv. split.
  - unfold iso_datetime, format_timestamp.
    rewrite list_ascii_of_string_of_list_ascii.
    unfold strftime_Ymd, strftime_HMS, pad4, pad2. simpl.
    rewrite parse_HMS_strftime by (apply ts_valid_bounds; assumption).
    apply parse_Ymd_strftime; assumption.
  - intros Hs. unfold iso_datetime, format_timestamp.
    rewrite list_ascii_of_string_of_list_ascii.
    unfold strftime_Ymd, pad4, pad2. simpl.
    rewrite <- Hs. apply parse_Ymd_strftime; assumption.
Qed.

(** ** Lists with labels *)

Local Open Scope nat_scope.

Lemma enumerate_from_snd {A : Type} (i : nat) (l : list A) :
  List.map snd (enumerate_from i l) = l.
Proof.
  revert i; induction l as [| x l IH]; intros i; simpl; [reflexivity |].
  now rewrite IH.
Qed.

Lemma enumerate_from_fst {A : Type} (i : nat) (l : list A) :
  List.map fst (enumerate_from i l) = List.seq i (List.length l).
Proof.
  revert i; induction l as [| x l IH]; intros i; simpl; [reflexivity |].
  now rewrite IH.
Qed.

Lemma enumerate_from_length {A : Type} (i : nat) (l : list A) :
  List.length (enumerate_from i l) = List.length l.
Proof.
  revert i; induction l as [| x l IH]; intros i; simpl; [reflexivity |].
  now rewrite IH.
Qed.

Lemma enumerate_from_label_ge {A : Type} (i : nat) (l : list A) (j : nat) (x : A) :
  In (j, x) (enumerate_from i l) -> i <= j.
Proof.
  revert i; induction l as [| y l IH]; intros i; simpl; [tauto |].
  intros [Heq | Hin].
  - injection Heq as <- _. lia.
  - apply IH in Hin. lia.
Qed.

(** ** Loading *)

Section LoadFacts.

Variable parse_datetime : string -> option Timestamp.

Lemma to_datetime_coerce (d : DateCell) :
  to_datetime parse_datetime errors_coerce d = Ok (coerced parse_datetime d).
Proof.
  destruct d as [| s | t]; simpl; try reflexivity.
  now destruct (parse_datetime s).
Qed.

Lemma convert_rows_coerce (rs : list (nat * Row)) :
  mapM (fun ir => do d <- to_datetime parse_datetime errors_coerce (Date (snd ir));
                  Ok (fst ir, set_Date d (snd ir))) rs
  = Ok (List.map (fun ir => (fst ir, set_Date (coerced parse_datetime (Date (snd ir))) (snd ir))) rs).
Proof.
  induction rs as [| ir rs IH]; simpl; [reflexivity |].
  rewrite to_datetime_coerce, IH. reflexivity.
Qed.

Lemma convert_Date_coerce (df : DataFrame) :
  has_column "Date" (columns df) = true ->
  convert_Date parse_datetime errors_coerce df
  = Ok {| columns := columns df;
          rows := List.map (fun ir => (fst ir, set_Date (coerced parse_datetime (Date (snd ir))) (snd ir)))
                           (rows df) |}.
Proof.
  intros H. unfold convert_Date. rewrite H, convert_rows_coerce. reflexivity.
Qed.

Lemma load_rows_spec (with_month : bool) (i : nat) (ls : list CsvLine) :
  List.filter (fun ir => notna_Date (snd ir))
    (List.map (fun ir => (fst ir, set_Date (coerced parse_datetime (Date (snd ir))) (snd ir)))
              (enumerate_from i (List.map (read_line with_month) ls)))
  = load_spec parse_datetime with_month i ls.
Proof.
  revert i; induction ls as [| l ls IH]; intros i; simpl; [reflexivity |].
  unfold parsed_date, notna_Date at 1. simpl. unfold read_date.
  destruct (is_na (f_Date l)); simpl; [apply IH |].
  destruct (parse_datetime (f_Date l)); simpl; now rewrite IH.
Qed.

Lemma load_data_Some (f : CsvFile) :
  has_column "Date" (header f) = true ->
  load_data parse_datetime (Some f)
  = Ok {| columns := header f;
          rows := load_spec parse_datetime (has_column "Month" (header f)) 0 (lines f) |}.
Proof.
  intros H. unfold load_data.
  rewrite convert_Date_coerce by exact H. simpl.
  unfold dropna_Date, select. simpl. now rewrite load_rows_spec.
Qed.

Lemma load_spec_dated (with_month : bool) (i : nat) (ls : list CsvLine) :
  Forall (fun ir => exists t, Date (snd ir) = Time t)
         (load_spec parse_datetime with_month i ls).
Proof.
  revert i; induction ls as [| l ls IH]; intros i; simpl; [constructor |].
  destruct (parsed_date parse_datetime l) as [t |]; [| apply IH].
  constructor; [now exists t | apply IH].
Qed.

Lemma load_spec_labels (with_month : bool) (i : nat) (ls : list CsvLine) (j : nat) (r : Row) :
  In (j, r) (load_spec parse_datetime with_month i ls) <->
  exists l t, nth_error ls (j - i) = Some l /\ i <= j /\
              parsed_date parse_datetime l = Some t /\
              r = set_Date (Time t) (read_line with_month l).
Proof.
  revert i; induction ls as [| l ls IH]; intros i; simpl.
  - split; [tauto |]. intros (l & t & H & _). now destruct (j - i).
  - destruct (parsed_date parse_datetime l) as [t |] eqn:Hp; simpl; rewrite ?IH.
    + split.
      * intros [Heq | (l' & t' & Hn & Hle & Hp' & ->)].
        -- injection Heq as <- <-. exists l, t. rewrite Nat.sub_diag. auto.
        -- exists l', t'. replace (j - i) with (S (j - S i)) by lia. simpl.
           repeat split; auto; lia.
      * intros (l' & t' & Hn & Hle & Hp' & ->).
        destruct (Nat.eq_dec i j) as [<- | Hne].
        -- rewrite Nat.sub_diag in Hn. simpl in Hn. injection Hn as <-.
           left. congruence.
        -- right. exists l', t'. replace (j - i) with (S (j - S i)) in Hn by lia.
           simpl in Hn. repeat split; auto; lia.
    + split.
      * intros (l' & t' & Hn & Hle & Hp' & ->).
        exists l', t'. replace (j - i) with (S (j - S i)) by lia. simpl.
        repeat split; auto; lia.
      * intros (l' & t' & Hn & Hle & Hp' & ->).
        destruct (Nat.eq_dec i j) as [<- | Hne].
        -- rewrite Nat.sub_diag in Hn. simpl in Hn. injection Hn as <-. congruence.
        -- exists l', t'. replace (j - i) with (S (j - S i)) in Hn by lia.
           simpl in Hn. repeat split; auto; lia.
Qed.

End LoadFacts.

(** ** Writing the file and reading it back *)

Lemma string_of_list_ascii_length (l : list ascii) :
  String.length (string_of_list_ascii l) = List.length l.
Proof. induction l as [| c l IH]; simpl; congruence. Qed.

Lemma format_timestamp_length (b : bool) (t : Timestamp) :
  8 < String.length (format_timestamp b t).
Proof.
  unfold format_timestamp. rewrite string_of_list_ascii_length.
  destruct b; simpl; lia.
Qed.

(** Every marker of a missing value is at most eight characters long. *)
Lemma is_na_short (s : string) : is_na s = true -> String.length s <= 8.
Proof.
  unfold is_na. rewrite existsb_exists.
  intros (x & Hin & Heq). apply String.eqb_eq in Heq. subst x.
  simpl in Hin.
  repeat (destruct Hin as [<- | Hin]; [simpl; lia |]).
  contradiction.
Qed.

Lemma is_na_format_timestamp (b : bool) (t : Timestamp) :
  is_na (format_timestamp b t) = false.
Proof.
  destruct (is_na (format_timestamp b t)) eqn:E; [| reflexivity].
  apply is_na_short in E. pose proof (format_timestamp_length b t). lia.
Qed.


Section RoundTrip.

Variable parse_datetime : string -> option Timestamp.

(** The parser reads the two formats of [to_csv]. *)
Hypothesis parse_format : forall t : Timestamp,
  ts_valid t = true ->
  parse_datetime (format_timestamp false t) = Some t /\
  (secs t = 0%N -> parse_datetime (format_timestamp true t) = Some t).

Lemma parsed_date_write_line (dates_only with_month : bool) (r : Row) (t : Timestamp) :
  Date r = Time t -> ts_valid t = true ->
  (dates_only = true -> at_midnight r = true) ->
  parsed_date parse_datetime (write_line dates_only with_month r) = Some t.
Proof using parse_format.
  intros Hd Hv Hm. unfold parsed_date, write_line. simpl. rewrite Hd. simpl.
  rewrite is_na_format_timestamp.
  destruct (parse_format t Hv) as [Hfull Hday].
  destruct dates_only; [| exact Hfull].
  apply Hday. specialize (Hm eq_refl). unfold at_midnight in Hm. rewrite Hd in Hm.
  now apply N.eqb_eq.
Qed.



End RoundTrip.

(** ** Sorting for display *)

Lemma insert_desc_perm (x : nat * Row) (l : list (nat * Row)) :
  Permutation (insert_desc x l) (x :: l).
Proof.
  induction l as [| y l IH]; simpl; [apply Permutation_refl |].
  destruct (date_rank (snd y) <=? date_rank (snd x))%N; [apply Permutation_refl |].
  eapply perm_trans; [apply perm_skip, IH | apply perm_swap].
Qed.

Lemma sort_desc_perm (l : list (nat * Row)) : Permutation (sort_desc l) l.
Proof.
  induction l as [| x l IH]; simpl; [constructor |].
  eapply perm_trans; [apply insert_desc_perm | now apply perm_skip].
Qed.

Lemma insert_desc_sorted (x : nat * Row) (l : list (nat * Row)) :
  StronglySorted date_desc l -> StronglySorted date_desc (insert_desc x l).
Proof.
  induction l as [| y l IH]; intros Hs; simpl.
  - repeat constructor.
  - inversion Hs as [| y' l' Hs' Hy]; subst.
    destruct (date_rank (snd y) <=? date_rank (snd x))%N eqn:E.
    + apply N.leb_le in E. constructor; [exact Hs |].
      constructor; [exact E |].
      eapply List.Forall_impl; [| exact Hy].
      intros z Hz. unfold date_desc in *. lia.
    + apply N.leb_gt in E. constructor; [now apply IH |].
      eapply Permutation_Forall; [symmetry; apply insert_desc_perm |].
      constructor; [unfold date_desc; lia | exact Hy].
Qed.

Lemma sort_desc_sorted (l : list (nat * Row)) : StronglySorted date_desc (sort_desc l).
Proof.
  induction l as [| x l IH]; simpl; [constructor |].
  now apply insert_desc_sorted.
Qed.

Lemma sort_desc_length (l : list (nat * Row)) : List.length (sort_desc l) = List.length l.
Proof. apply Permutation_length, sort_desc_perm. Qed.

(** A table that is already in display order is left as it is. *)
Lemma insert_desc_head (x : nat * Row) (l : list (nat * Row)) :
  Forall (date_desc x) l -> insert_desc x l = x :: l.
Proof.
  destruct l as [| y l]; simpl; [reflexivity |].
  intros H. inversion H as [| y' l' Hy _]; subst.
  unfold date_desc in Hy. apply N.leb_le in Hy. now rewrite Hy.
Qed.

Lemma sort_desc_sorted_id (l : list (nat * Row)) :
  StronglySorted date_desc l -> sort_desc l = l.
Proof.
  induction 1 as [| x l Hs IH Hx]; simpl; [reflexivity |].
  rewrite IH. now apply insert_desc_head.
Qed.

(** ** Addressing rows by label *)

Lemma existsb_label (label : nat) (l : list nat) :
  List.existsb (Nat.eqb label) l = true <-> In label l.
Proof.
  rewrite existsb_exists. split.
  - intros (x & Hin & Heq). apply Nat.eqb_eq in Heq. now subst.
  - intros Hin. exists label. split; [exact Hin | apply Nat.eqb_refl].
Qed.

Lemma index_at_reset_index (df : DataFrame) (i : nat) :
  i < len df -> index_at (reset_index df) i = Ok i.
Proof.
  intros H. unfold index_at, index, reset_index. simpl.
  rewrite enumerate_from_fst.
  assert (nth_error (List.seq 0 (List.length (values df))) i = Some i) as ->; [| reflexivity].
  unfold values. rewrite length_map.
  rewrite nth_error_nth' with (d := 0) by (now rewrite length_seq).
  now rewrite seq_nth.
Qed.

Lemma loc_reset_index (df : DataFrame) (i : nat) :
  i < len df -> exists r, loc i (reset_index df) = Ok r /\ nth_error (values df) i = Some r.
Proof.
  unfold loc, reset_index, len. simpl.
  replace (List.length (rows df)) with (List.length (values df))
    by (unfold values; apply length_map).
  generalize (values df) as l. intros l.
  assert (forall k j, j < List.length l ->
            exists r, List.find (fun ir : nat * Row => Nat.eqb (fst ir) (k + j))
                                (enumerate_from k l) = Some (k + j, r) /\
                      nth_error l j = Some r) as Hgen.
  { induction l as [| x l IH]; intros k j Hj; simpl in *; [lia |].
    destruct j as [| j].
    - rewrite Nat.add_0_r, Nat.eqb_refl. now exists x.
    - replace (k =? k + S j) with false by (symmetry; apply Nat.eqb_neq; lia).
      destruct (IH (S k) j) as (r & Hf & Hn); [lia |].
      exists r. replace (k + S j) with (S k + j) by lia. now split. }
  intros Hi. destruct (Hgen 0 i Hi) as (r & Hf & Hn). simpl in Hf.
  exists r. now rewrite Hf.
Qed.

Lemma loc_set_index_in (label : nat) (f : Row -> Row) (df : DataFrame) :
  In label (index df) -> index (loc_set label f df) = index df.
Proof.
  intros Hin. unfold loc_set. apply existsb_label in Hin. rewrite Hin.
  unfold index. simpl. rewrite map_map. apply map_ext.
  intros [i r]. simpl. now destruct (i =? label).
Qed.

Lemma loc_set_loc_set (label : nat) (f g : Row -> Row) (df : DataFrame) :
  loc_set label g (loc_set label f df) = loc_set label (fun r => g (f r)) df.
Proof.
  unfold loc_set at 2 3.
  destruct (List.existsb (Nat.eqb label) (index df)) eqn:E.
  - assert (In label (index df)) as Hin by now apply existsb_label.
    unfold loc_set. 
    replace (List.existsb (Nat.eqb label) (index _)) with true.
    + simpl. f_equal. rewrite map_map. apply map_ext.
      intros [i r]. simpl. destruct (i =? label) eqn:Ei; simpl; now rewrite ?Ei.
    + symmetry. apply existsb_label. unfold index. simpl. rewrite map_map.
      unfold index in Hin. apply in_map_iff in Hin. destruct Hin as ([i r] & Hi & Hin).
      apply in_map_iff. exists (i, r). split; [| exact Hin].
      simpl in *. now destruct (i =? label).
  - unfold loc_set.
    replace (List.existsb (Nat.eqb label) (index _)) with true.
    + simpl. f_equal. rewrite map_app. simpl. rewrite Nat.eqb_refl. f_equal.
      rewrite <- (map_id (rows df)) at 2. apply map_ext_in.
      intros [i r] Hin. simpl. destruct (i =? label) eqn:Ei; [| reflexivity].
      apply Nat.eqb_eq in Ei. subst i.
      assert (List.existsb (Nat.eqb label) (index df) = true) as Hc.
      { apply existsb_label. unfold index. apply in_map_iff. now exists (label, r). }
      congruence.
    + symmetry. apply existsb_label. unfold index. simpl. rewrite map_app.
      apply in_or_app. right. now left.
Qed.

(** The update branch overwrites the row whose label is the number typed
    into the widget. *)
Lemma update_rows_by_label (df : DataFrame) (i : nat) (a : Q) (ty : TxType) (c : string)
                           (d : Timestamp) :
  i < len df ->
  update_rows df (reset_index df) i a ty c d = Ok (loc_set i (edited a ty c d) df).
Proof.
  intros H. unfold update_rows. rewrite index_at_reset_index by exact H. simpl.
  now rewrite !loc_set_loc_set.
Qed.

Lemma delete_row_by_label (df : DataFrame) (i : nat) :
  i < len df -> delete_row df (reset_index df) i = drop i df.
Proof.
  intros H. unfold delete_row. now rewrite index_at_reset_index by exact H.
Qed.

(** ** One render, event by event *)

Section RenderFacts.

Variable parse_datetime : string -> option Timestamp.

Lemma load_data_inv (file : option CsvFile) (df : DataFrame) :
  load_data parse_datetime file = Ok df ->
  has_column "Date" (columns df) = true /\
  Forall (fun ir => exists t, Date (snd ir) = Time t) (rows df).
Proof.
  destruct file as [f |].
  - destruct (has_column "Date" (header f)) eqn:E.
    + rewrite (load_data_Some parse_datetime f E). intros [= <-]. simpl.
      split; [exact E | apply load_spec_dated].
    + unfold load_data, convert_Date. simpl. rewrite E. discriminate.
  - intros [= <-]. simpl. split; [reflexivity | constructor].
Qed.

Lemma clean_dates_dated (df : DataFrame) :
  has_column "Date" (columns df) = true ->
  Forall (fun ir => exists t, Date (snd ir) = Time t) (rows df) ->
  clean_dates parse_datetime df = Ok df.
Proof.
  intros Hc Hd. unfold clean_dates. rewrite convert_Date_coerce by exact Hc. simpl.
  unfold dropna_Date, select. simpl. destruct df as [cols rs]. simpl in *.
  do 2 f_equal. induction Hd as [| [i r] rs (t & Ht) Hd IH]; simpl; [reflexivity |].
  simpl in Ht. unfold notna_Date at 1. simpl. rewrite Ht. simpl. rewrite IH.
  f_equal. f_equal. destruct r; simpl in *. now subst.
Qed.

Lemma empty_assign_Month (df : DataFrame) :
  empty (assign_Month df) = match rows df with [] => true | _ => false end.
Proof.
  unfold empty, assign_Month. simpl.
  destruct (has_column "Month" (columns df)) eqn:E.
  - destruct (columns df) as [| c cs]; [discriminate |]. now destruct (rows df).
  - destruct (columns df) as [| c cs]; simpl; now destruct (rows df).
Qed.

Lemma len_display (df : DataFrame) :
  len (reset_index (sort_values_Date_desc (assign_Month df))) = len df.
Proof.
  unfold len, reset_index, values. simpl.
  now rewrite enumerate_from_length, !length_map, sort_desc_length, length_map.
Qed.

Lemma len_sorted (df : DataFrame) :
  len (sort_values_Date_desc (assign_Month df)) = len df.
Proof.
  unfold len. simpl. now rewrite sort_desc_length, length_map.
Qed.

Variables (now : Timestamp) (limit : Q).

Lemma render_update (file : option CsvFile) (df : DataFrame) (i : nat)
                    (a : Q) (ty : TxType) (c : string) (d : Timestamp) :
  load_data parse_datetime file = Ok df ->
  i < len df ->
  render parse_datetime file now limit (UpdateSubmitted i a ty c d)
  = Ok (save_data (loc_set i (edited a ty c d) (sort_values_Date_desc (assign_Month df))),
        Rerun).
Proof.
  intros Hload Hi. destruct (load_data_inv file df Hload) as [Hc Hd].
  unfold render. rewrite Hload. simpl.
  rewrite (clean_dates_dated df Hc Hd). simpl.
  rewrite empty_assign_Month.
  destruct (rows df) as [| ir rs] eqn:Hrows; [unfold len in Hi; rewrite Hrows in Hi; simpl in Hi; lia |].
  unfold number_input_index. simpl.
  destruct (loc_reset_index (sort_values_Date_desc (assign_Month df)) i) as (r & Hr & _);
    [now rewrite len_sorted |].
  rewrite Hr. simpl.
  rewrite update_rows_by_label by (now rewrite len_sorted).
  reflexivity.
Qed.

Lemma render_delete (file : option CsvFile) (df : DataFrame) (i : nat) :
  load_data parse_datetime file = Ok df ->
  i < len df ->
  render parse_datetime file now limit (DeleteSubmitted i)
  = do df' <- drop i (sort_values_Date_desc (assign_Month df)); Ok (save_data df', Rerun).
Proof.
  intros Hload Hi. destruct (load_data_inv file df Hload) as [Hc Hd].
  unfold render. rewrite Hload. simpl.
  rewrite (clean_dates_dated df Hc Hd). simpl.
  rewrite empty_assign_Month.
  destruct (rows df) as [| ir rs] eqn:Hrows; [unfold len in Hi; rewrite Hrows in Hi; simpl in Hi; lia |].
  unfold number_input_index. simpl.
  destruct (loc_reset_index (sort_values_Date_desc (assign_Month df)) i) as (r & Hr & _);
    [now rewrite len_sorted |].
  rewrite Hr. simpl.
  rewrite delete_row_by_label by (now rewrite len_sorted).
  reflexivity.
Qed.

Lemma render_add (file : option CsvFile) (df : DataFrame)
                 (a : Q) (ty : TxType) (c : string) (d : Timestamp) :
  load_data parse_datetime file = Ok df ->
  render parse_datetime file now limit (AddSubmitted a ty c d)
  = if Qle_bool 0 a then
      if (List.length (columns df) =? 4)%nat then
        Ok (save_data {| columns := columns df;
                         rows := enumerate_from 0 (values df ++ [added a ty c d]) |}, Rerun)
      else Raise ValueError
    else Raise StreamlitAPIException.
Proof.
  intros Hload. unfold render. rewrite Hload. simpl.
  unfold number_input. simpl. rewrite andb_true_r.
  destruct (Qle_bool 0 a); simpl; [| reflexivity].
  unfold new_row_frame. destruct (List.length (columns df) =? 4)%nat; reflexivity.
Qed.

Lemma render_view (file : option CsvFile) (df : DataFrame) :
  load_data parse_datetime file = Ok df ->
  render parse_datetime file now limit NoEvent
  = charts file
      (match rows df with
       | [] => view_of now limit df (assign_Month df) (assign_Month df) None
       | _ => view_of now limit df (assign_Month df)
                      (sort_values_Date_desc (assign_Month df))
                      (Some (reset_index (sort_values_Date_desc (assign_Month df))))
       end).
Proof.
  intros Hload. destruct (load_data_inv file df Hload) as [Hc Hd].
  unfold render. rewrite Hload. simpl.
  rewrite (clean_dates_dated df Hc Hd). simpl.
  rewrite empty_assign_Month. now destruct (rows df).
Qed.

End RenderFacts.

(** ** Sums *)

Local Open Scope Q_scope.

Lemma Amount_sum_select (p : Row -> bool) (df : DataFrame) :
  Amount_sum (select p df) = sum_where p (values df).
Proof.
  unfold Amount_sum, select, values. simpl.
  induction (rows df) as [| [i r] rs IH]; simpl; [reflexivity |].
  destruct (p r); simpl; now rewrite IH.
Qed.

Lemma values_select (p : Row -> bool) (df : DataFrame) :
  values (select p df) = List.filter p (values df).
Proof.
  unfold select, values. simpl.
  induction (rows df) as [| [i r] rs IH]; simpl; [reflexivity |].
  destruct (p r); simpl; now rewrite IH.
Qed.

Lemma sum_where_filter (p : Row -> bool) (rs : list Row) :
  sum_where p rs = sum (List.map Amount (List.filter p rs)).
Proof.
  induction rs as [| r rs IH]; simpl; [reflexivity |].
  destruct (p r); simpl; now rewrite IH.
Qed.

Lemma sum_where_none (p : Row -> bool) (rs : list Row) :
  List.existsb p rs = false -> sum_where p rs = 0.
Proof.
  induction rs as [| r rs IH]; simpl; [reflexivity |].
  destruct (p r); simpl; [discriminate | exact IH].
Qed.

(** A row that does not qualify adds nothing, wherever it stands. *)
Lemma sum_where_skip (p : Row -> bool) (l1 l2 : list Row) (r : Row) :
  p r = false -> sum_where p (l1 ++ r :: l2) = sum_where p (l1 ++ l2).
Proof.
  intros H. induction l1 as [| x l1 IH]; simpl; [now rewrite H |].
  now rewrite IH.
Qed.

Lemma filter_skip {A : Type} (p : A -> bool) (l1 l2 : list A) (x : A) :
  p x = false -> List.filter p (l1 ++ x :: l2) = List.filter p (l1 ++ l2).
Proof.
  intros H. rewrite !List.filter_app. simpl. now rewrite H.
Qed.

Lemma add_skipna_comm (a b : option Q) (acc : Q) :
  add_skipna a (add_skipna b acc) == add_skipna b (add_skipna a acc).
Proof. destruct a, b; simpl; ring. Qed.

Lemma add_skipna_compat (a : option Q) (x y : Q) :
  x == y -> add_skipna a x == add_skipna a y.
Proof. intros H. destruct a; simpl; now rewrite H. Qed.

(** In exact arithmetic a sum does not depend on the order of the rows. *)
Lemma sum_perm (l1 l2 : list (option Q)) : Permutation l1 l2 -> sum l1 == sum l2.
Proof.
  induction 1 as [| a l1 l2 _ IH | a b l | l1 l2 l3 _ IH1 _ IH2]; simpl.
  - reflexivity.
  - now apply add_skipna_compat.
  - apply add_skipna_comm.
  - now rewrite IH1.
Qed.

(** ** Grouped sums *)

Lemma groupby_sum_lookup {K : Type} `{Countable K} (key : Row -> option K)
                         (rs : list Row) (k : K) :
  groupby_sum key rs !! k
  = if List.existsb (fun r => bool_decide (key r = Some k)) rs
    then Some (sum_where (fun r => bool_decide (key r = Some k)) rs)
    else None.
Proof.
  induction rs as [| r rs IH]; simpl; [apply lookup_empty |].
  destruct (key r) as [k' |] eqn:Hk.
  - destruct (decide (k' = k)) as [-> | Hne].
    + rewrite lookup_insert_eq. rewrite bool_decide_eq_true_2 by reflexivity. simpl.
      rewrite IH.
      destruct (List.existsb _ rs) eqn:E; simpl; [reflexivity |].
      now rewrite sum_where_none.
    + rewrite lookup_insert_ne by exact Hne.
      rewrite bool_decide_eq_false_2 by congruence. simpl. exact IH.
  - rewrite bool_decide_eq_false_2 by congruence. simpl. exact IH.
Qed.

Lemma Category_key_in_category (c : string) (r : Row) :
  bool_decide (Category_key r = Some c) = in_category c r.
Proof.
  unfold Category_key, in_category, cell_is.
  destruct (Category r) as [| s].
  - now apply bool_decide_eq_false_2.
  - destruct (String.eqb s c) eqn:E.
    + apply String.eqb_eq in E. subst. now apply bool_decide_eq_true_2.
    + apply String.eqb_neq in E. apply bool_decide_eq_false_2. congruence.
Qed.

Lemma sum_where_ext (p q : Row -> bool) (rs : list Row) :
  (forall r, p r = q r) -> sum_where p rs = sum_where q rs.
Proof.
  intros H. induction rs as [| r rs IH]; simpl; [reflexivity |].
  now rewrite H, IH.
Qed.

Lemma existsb_ext' {A : Type} (p q : A -> bool) (l : list A) :
  (forall x, p x = q x) -> List.existsb p l = List.existsb q l.
Proof.
  intros H. induction l as [| x l IH]; simpl; [reflexivity |].
  now rewrite H, IH.
Qed.

Lemma sum_where_filter_and (p q : Row -> bool) (rs : list Row) :
  sum_where q (List.filter p rs) = sum_where (fun r => p r && q r) rs.
Proof.
  induction rs as [| r rs IH]; simpl; [reflexivity |].
  destruct (p r); simpl; now rewrite IH.
Qed.

Lemma existsb_filter_and {A : Type} (p q : A -> bool) (l : list A) :
  List.existsb q (List.filter p l) = List.existsb (fun x => p x && q x) l.
Proof.
  induction l as [| x l IH]; simpl; [reflexivity |].
  destruct (p x); simpl; now rewrite IH.
Qed.

Lemma expense_by_category_lookup (df : DataFrame) (c : string) :
  expense_by_category df !! c
  = if List.existsb (fun r => is_Expense r && in_category c r) (values df)
    then Some (sum_where (fun r => is_Expense r && in_category c r) (values df))
    else None.
Proof.
  unfold expense_by_category. rewrite groupby_sum_lookup, values_select.
  rewrite (existsb_ext' _ (in_category c)) by (apply Category_key_in_category).
  rewrite (sum_where_ext _ (in_category c)) by (apply Category_key_in_category).
  now rewrite existsb_filter_and, sum_where_filter_and.
Qed.

(** * The claims *)

(** ** Edit and delete address a row by label *)

(** C1, on the code: the ledger holds Food (2024-03-01, Expense, 30) and
    Salary (2024-03-02, Income, 500), added in that order.  The table shows
    Salary at position 0 and Food at position 1.  Editing position 0 to
    (2024-03-02, Income, 600, Salary) overwrites the Food row, the row
    whose label is 0, and leaves the Salary row shown at position 0 as it
    was: the saved file holds Income 500 and Income 600 and no Food. *)
Theorem update_overwrites_row_labelled_not_shown :
  shown_rows (render iso_datetime (Some food_salary_file) mid_march 5000 NoEvent)
    = Some [salary_row; food_row] /\
  render iso_datetime (Some food_salary_file) mid_march 5000
         (UpdateSubmitted 0 600 Income "Salary" day_0302)
    = Ok (Some {| header := ["Date"; "Type"; "Amount"; "Category"; "Month"];
                  lines := [ {| f_Date := "2024-03-02"; f_Type := "Income";
                                f_Amount := Some 500; f_Category := "Salary";
                                f_Month := "2024-03" |};
                             {| f_Date := "2024-03-02"; f_Type := "Income";
                                f_Amount := Some 600; f_Category := "Salary";
                                f_Month := "2024-03" |} ] |},
          Rerun).
Proof. split; vm_compute; reflexivity. Qed.

(** C2, on the code: the end-to-end scenario.  From no file, adding
    (2024-03-01, Expense, 30, Food) and then (2024-03-02, Income, 500,
    Salary) gives the two-line file; the table shows Salary at position 0
    and Food at position 1.  Deleting position 1, where the Expense row is
    shown, drops the row whose label is 1, the Income row: the Expense row
    is what is left, and the totals are (0, 30, -30). *)
Theorem delete_drops_row_labelled_not_shown :
  render iso_datetime None mid_march 5000 (AddSubmitted 30 Expense "Food" day_0301)
    = Ok (Some {| header := base_columns; lines := [food_line] |}, Rerun) /\
  render iso_datetime (Some {| header := base_columns; lines := [food_line] |}) mid_march 5000
         (AddSubmitted 500 Income "Salary" day_0302)
    = Ok (Some food_salary_file, Rerun) /\
  shown_rows (render iso_datetime (Some food_salary_file) mid_march 5000 NoEvent)
    = Some [salary_row; food_row] /\
  render iso_datetime (Some food_salary_file) mid_march 5000 (DeleteSubmitted 1)
    = Ok (Some {| header := ["Date"; "Type"; "Amount"; "Category"; "Month"];
                  lines := [ {| f_Date := "2024-03-01"; f_Type := "Expense";
                                f_Amount := Some 30; f_Category := "Food";
                                f_Month := "2024-03" |} ] |},
          Rerun) /\
  shown_totals
    (render iso_datetime
       (file_after (render iso_datetime (Some food_salary_file) mid_march 5000
                           (DeleteSubmitted 1)))
       mid_march 5000 NoEvent)
    = Some (0, 30, -30).
Proof. repeat split; vm_compute; reflexivity. Qed.

(** ** Round trip through the file *)





(** ** Loading never fails on a date *)

(** C5: without a backing file [load_data] returns the empty table with the
    columns Date, Type, Amount, Category.  With a file that has a Date
    column it returns a table and raises nothing, whatever the date fields
    hold: the rows are the lines whose date parses, each under the label of
    its line and with the parsed date, in the order of the file; a line
    whose date does not parse (or is missing) is left out. *)
Theorem load_data_drops_unparseable_dates (parse_datetime : string -> option Timestamp) :
  load_data parse_datetime None = Ok {| columns := base_columns; rows := [] |} /\
  forall f : CsvFile,
    has_column "Date" (header f) = true ->
    exists df : DataFrame,
      load_data parse_datetime (Some f) = Ok df /\
      columns df = header f /\
      rows df = load_spec parse_datetime (has_column "Month" (header f)) 0 (lines f) /\
      Forall (fun r => exists t, Date r = Time t) (values df) /\
      forall (i : nat) (l : CsvLine),
        nth_error (lines f) i = Some l ->
        match parsed_date parse_datetime l with
        | Some t =>
            In (i, set_Date (Time t) (read_line (has_column "Month" (header f)) l)) (rows df)
        | None => ~ In i (index df)
        end.
Proof.
  split; [reflexivity |].
  intros f Hc. eexists. split; [apply load_data_Some; exact Hc |]. simpl.
  split; [reflexivity |]. split; [reflexivity |]. split.
  - unfold values. simpl. apply Forall_map.
    apply load_spec_dated.
  - intros i l Hn. destruct (parsed_date parse_datetime l) as [t |] eqn:Hp.
    + apply load_spec_labels. exists l, t. rewrite Nat.sub_0_r.
      repeat split; auto; lia.
    + unfold index. simpl. intros Hin. apply in_map_iff in Hin.
      destruct Hin as ([j r] & Hj & Hin). simpl in Hj. subst j.
      apply load_spec_labels in Hin. destruct Hin as (l' & t' & Hn' & _ & Hp' & _).
      rewrite Nat.sub_0_r in Hn'. congruence.
Qed.

Lemma load_data_drops_unparseable_dates_witness :
  exists df : DataFrame,
    load_data iso_datetime (Some damaged_file) = Ok df /\
    index df = [1%nat] /\
    Forall (fun r => exists t, Date r = Time t) (values df).
Proof.
  destruct (load_data_drops_unparseable_dates iso_datetime) as [_ H].
  destruct (H damaged_file eq_refl) as (df & Hload & _ & Hrows & Hdated & _).
  exists df. split; [exact Hload |]. split; [| exact Hdated].
  unfold index. rewrite Hrows. reflexivity.
Defined.

(** ** What a mutation leaves in the file *)

Lemma to_csv_line_keys (df : DataFrame) :
  List.map line_key (lines (to_csv df))
  = List.map (written_key (forallb at_midnight (values df))) (values df).
Proof. unfold to_csv. simpl. rewrite map_map. reflexivity. Qed.

Lemma values_mk (cols : list string) (rs : list (nat * Row)) :
  values {| columns := cols; rows := rs |} = List.map snd rs.
Proof. reflexivity. Qed.

Lemma columns_assign_Month (df : DataFrame) :
  exists extra : list string, columns (assign_Month df) = (columns df ++ extra)%list.
Proof.
  unfold assign_Month. simpl. destruct (has_column "Month" (columns df)).
  - exists []. now rewrite app_nil_r.
  - now exists ["Month"].
Qed.

Lemma loc_set_present (label : nat) (f : Row -> Row) (df : DataFrame) :
  In label (index df) ->
  loc_set label f df
  = {| columns := columns df;
       rows := List.map (fun ir => if Nat.eqb (fst ir) label then (fst ir, f (snd ir)) else ir)
                        (rows df) |}.
Proof. intros H. unfold loc_set. apply existsb_label in H. now rewrite H. Qed.

Lemma loc_set_absent (label : nat) (f : Row -> Row) (df : DataFrame) :
  ~ In label (index df) ->
  loc_set label f df
  = {| columns := columns df; rows := (rows df ++ [(label, f missing_row)])%list |}.
Proof.
  intros H. unfold loc_set.
  destruct (List.existsb (Nat.eqb label) (index df)) eqn:E; [| reflexivity].
  apply existsb_label in E. contradiction.
Qed.

Lemma drop_present (label : nat) (df : DataFrame) :
  In label (index df) ->
  drop label df
  = Ok {| columns := columns df;
          rows := List.filter (fun ir => negb (Nat.eqb (fst ir) label)) (rows df) |}.
Proof. intros H. unfold drop. apply existsb_label in H. now rewrite H. Qed.

Lemma drop_absent (label : nat) (df : DataFrame) :
  ~ In label (index df) -> drop label df = Raise KeyError.
Proof.
  intros H. unfold drop.
  destruct (List.existsb (Nat.eqb label) (index df)) eqn:E; [| reflexivity].
  apply existsb_label in E. contradiction.
Qed.

Lemma index_sorted_assign_Month (df : DataFrame) (i : nat) :
  In i (index df) <-> In i (index (sort_values_Date_desc (assign_Month df))).
Proof.
  unfold index. simpl. split; intros H.
  - eapply Permutation_in; [apply Permutation_map; symmetry; apply sort_desc_perm |].
    rewrite map_map. simpl. exact H.
  - eapply Permutation_in in H; [| apply Permutation_map; apply sort_desc_perm].
    rewrite map_map in H. exact H.
Qed.

(** C4 as stated fails: three transactions added on three successive days
    and the one shown at position 1 deleted.  The file is rewritten in
    display order, Rent before Food, not in the order the rows were added. *)
Lemma delete_saves_display_order :
  exists f' : CsvFile,
    render iso_datetime (Some food_salary_rent_file) mid_march 5000 (DeleteSubmitted 1)
      = Ok (Some f', Rerun) /\
    List.map f_Category (lines f') = ["Rent"; "Food"] /\
    List.map f_Category (lines f') <> ["Food"; "Rent"].
Proof.
  eexists. split; [vm_compute; reflexivity |].
  split; [reflexivity | discriminate].
Qed.

(** C4, amended: after an add the saved file has a header row with the
    columns of the loaded table, and its lines are the loaded rows in their
    stored order followed by the new row.  After an update or a delete of a
    row whose label exists, the header starts with the columns of the
    loaded table in order, and the lines are the rows in display order
    (date descending), with the mutated row rewritten in place or left
    out: the file is rewritten in display order, not in append order. *)
Theorem saved_file_order (parse_datetime : string -> option Timestamp)
    (file : option CsvFile) (df : DataFrame) (now : Timestamp) (limit : Q) :
  load_data parse_datetime file = Ok df ->
  (forall a ty c d f' pg,
     render parse_datetime file now limit (AddSubmitted a ty c d) = Ok (Some f', pg) ->
     header f' = columns df /\
     exists b : bool,
       List.map line_key (lines f')
       = List.map (written_key b) (values df ++ [added a ty c d])%list) /\
  exists shown : list (nat * Row),
    Permutation shown (rows (assign_Month df)) /\
    StronglySorted date_desc shown /\
    forall i : nat,
      (i < len df)%nat -> In i (index df) ->
      (forall a ty c d,
         exists f' : CsvFile,
           render parse_datetime file now limit (UpdateSubmitted i a ty c d)
             = Ok (Some f', Rerun) /\
           (exists extra, header f' = (columns df ++ extra)%list) /\
           exists b : bool,
             List.map line_key (lines f')
             = List.map (fun ir => written_key b
                                     (if Nat.eqb (fst ir) i then edited a ty c d (snd ir)
                                      else snd ir))
                        shown) /\
      (exists f' : CsvFile,
         render parse_datetime file now limit (DeleteSubmitted i) = Ok (Some f', Rerun) /\
         (exists extra, header f' = (columns df ++ extra)%list) /\
         exists b : bool,
           List.map line_key (lines f')
           = List.map (fun ir => written_key b (snd ir))
                      (List.filter (fun ir => negb (Nat.eqb (fst ir) i)) shown)).
Proof.
  intros Hload. split.
  - intros a ty c d f' pg Hr. rewrite (render_add _ _ _ _ _ _ _ _ _ Hload) in Hr.
    destruct (Qle_bool 0 a); [| discriminate].
    destruct (List.length (columns df) =? 4)%nat; [| discriminate].
    injection Hr as <- _. split; [reflexivity |].
    eexists. rewrite to_csv_line_keys, !values_mk, enumerate_from_snd. reflexivity.
  - exists (sort_desc (rows (assign_Month df))).
    split; [apply sort_desc_perm |]. split; [apply sort_desc_sorted |].
    intros i Hi Hin.
    assert (In i (index (sort_values_Date_desc (assign_Month df)))) as Hin'
      by (apply (proj1 (index_sorted_assign_Month df i)); exact Hin).
    split.
    + intros a ty c d. eexists.
      split; [apply (render_update parse_datetime now limit file df i a ty c d Hload Hi) |].
      rewrite loc_set_present by exact Hin'.
      split; [apply columns_assign_Month |].
      eexists. rewrite to_csv_line_keys.
      rewrite !values_mk. simpl. rewrite !map_map. apply map_ext.
      intros [j r]. simpl. now destruct (j =? i)%nat.
    + rewrite (render_delete _ _ _ _ _ _ Hload Hi), drop_present by exact Hin'. simpl.
      eexists. split; [reflexivity |].
      split; [apply columns_assign_Month |].
      eexists. rewrite to_csv_line_keys, !values_mk. simpl.
      now rewrite map_map.
Qed.

Lemma saved_file_order_witness :
  exists shown : list (nat * Row),
    List.map fst shown = [2%nat; 1%nat; 0%nat] /\
    StronglySorted date_desc shown /\
    exists f' : CsvFile,
      render iso_datetime (Some food_salary_rent_file) mid_march 5000 (DeleteSubmitted 1)
        = Ok (Some f', Rerun) /\
      List.map f_Category (lines f')
        = List.map f_Category
            (List.map (fun ir => write_line true true (snd ir))
                      (List.filter (fun ir => negb (Nat.eqb (fst ir) 1)) shown)).
Proof.
  exists (sort_desc
            (rows (assign_Month
                     {| columns := base_columns;
                        rows := load_spec iso_datetime false 0
                                          (lines food_salary_rent_file) |}))).
  split; [vm_compute; reflexivity |].
  destruct (saved_file_order iso_datetime (Some food_salary_rent_file)
              {| columns := base_columns;
                 rows := load_spec iso_datetime false 0 (lines food_salary_rent_file) |}
              mid_march 5000 eq_refl) as (_ & shown & _ & Hsorted & Hmut).
  destruct (Hmut 1%nat) as (_ & f' & Hdel & _).
  - vm_compute. lia.
  - vm_compute. tauto.
  - split; [apply sort_desc_sorted |].
    exists f'. split; [exact Hdel |].
    assert (Ok (Some f', Rerun)
            = render iso_datetime (Some food_salary_rent_file) mid_march 5000
                     (DeleteSubmitted 1)) as E by (symmetry; exact Hdel).
    vm_compute in E. injection E as ->. vm_compute. reflexivity.
Defined.

(** ** Totals *)

(** The sum of the code adds what [amount_total] adds, row by row: the
    step of every statement that spells a figure out. *)
Ltac sum_row_by_row :=
  let p := fresh "p" in
  let l := fresh "l" in
  let r := fresh "r" in
  let IH := fresh "IH" in
  intros p l; induction l as [| r l IH]; [reflexivity |];
  cbn [sum_where amount_total]; rewrite IH; unfold add_skipna; reflexivity.

Lemma amount_total_ext (p q : Row -> bool) (rs : list Row) :
  (forall r, p r = q r) -> amount_total p rs = amount_total q rs.
Proof.
  intros H. induction rs as [| r rs IH]; simpl; [reflexivity |].
  now rewrite H, IH.
Qed.

(** C6: the income total is the sum of the amounts of the rows whose Type
    is "Income", the expense total the sum of the amounts of the rows whose
    Type is "Expense", the balance is income minus expense, and on a ledger
    without rows all three are 0.  The sums on the right are written out
    row by row, without the masks and the sum of the code. *)
Theorem totals_by_type (df : DataFrame) :
  totals df = (amount_total (typed "Income") (values df),
               amount_total (typed "Expense") (values df),
               amount_total (typed "Income") (values df)
               - amount_total (typed "Expense") (values df)) /\
  balance df = total_income df - total_expense df /\
  (forall cols : list string, totals {| columns := cols; rows := [] |} = (0, 0, 0)).
Proof.
  assert (forall p l, sum_where p l = amount_total p l) as Hsum by sum_row_by_row.
  unfold totals, balance, total_income, total_expense.
  rewrite !Amount_sum_select, !Hsum.
  rewrite (amount_total_ext is_Income (typed "Income")) by (intros r; reflexivity).
  rewrite (amount_total_ext is_Expense (typed "Expense")) by (intros r; reflexivity).
  split; [reflexivity |]. split; [reflexivity |].
  intros cols. reflexivity.
Qed.

(** The totals of the end-to-end scenario of the specification: the code
    gives 500, 30 and 470, and so does the sum spelled out. *)
Lemma totals_by_type_witness :
  totals {| columns := base_columns;
            rows := load_spec iso_datetime false 0 (lines food_salary_file) |}
  = (500, 30, 470) /\
  amount_total (typed "Income")
    (values {| columns := base_columns;
               rows := load_spec iso_datetime false 0 (lines food_salary_file) |}) = 500 /\
  amount_total (typed "Expense")
    (values {| columns := base_columns;
               rows := load_spec iso_datetime false 0 (lines food_salary_file) |}) = 30.
Proof.
  assert (totals {| columns := base_columns;
                    rows := load_spec iso_datetime false 0 (lines food_salary_file) |}
          = (500, 30, 470)) as Hcode by (vm_compute; reflexivity).
  split; [exact Hcode |].
  pose proof (proj1 (totals_by_type
                       {| columns := base_columns;
                          rows := load_spec iso_datetime false 0 (lines food_salary_file) |}))
    as Hplain.
  rewrite Hcode in Hplain.
  split.
  - exact (eq_sym (f_equal (fun t : Q * Q * Q => fst (fst t)) Hplain)).
  - exact (eq_sym (f_equal (fun t : Q * Q * Q => snd (fst t)) Hplain)).
Defined.

Lemma filter_perm {A : Type} (p : A -> bool) (l1 l2 : list A) :
  Permutation l1 l2 -> Permutation (List.filter p l1) (List.filter p l2).
Proof.
  induction 1 as [| x l1 l2 _ IH | x y l | l1 l2 l3 _ IH1 _ IH2]; simpl.
  - constructor.
  - destruct (p x); [now apply perm_skip | exact IH].
  - destruct (p x), (p y); try apply Permutation_refl. apply perm_swap.
  - now apply perm_trans with (List.filter p l2).
Qed.

(** The display order does not change a total. *)
Lemma Amount_sum_sorted (p : Row -> bool) (df : DataFrame) :
  Amount_sum (select p (sort_values_Date_desc df)) == Amount_sum (select p df).
Proof.
  unfold Amount_sum. rewrite !values_select. apply sum_perm.
  apply Permutation_map, filter_perm.
  unfold values. simpl. apply Permutation_map, sort_desc_perm.
Qed.

(** ** Budget *)

(** C7: the status is OverBudget exactly when the monthly expense exceeds
    the limit; an expense equal to the limit is within budget, and any
    positive excess is over budget. *)
Theorem budget_status_over_iff (x l : Q) :
  (budget_status x l = OverBudget <-> l < x) /\
  budget_status x x = WithinBudget /\
  (forall eps : Q, 0 < eps -> budget_status (x + eps) x = OverBudget).
Proof.
  assert (forall a b : Q, budget_status a b = OverBudget <-> b < a) as Hiff.
  { intros a b. unfold budget_status.
    destruct (Qle_bool a b) eqn:E.
    - apply Qle_bool_iff in E. split; [discriminate |].
      intros H. exfalso. apply (Qlt_not_le _ _ H). exact E.
    - split; [| reflexivity]. intros _.
      apply Qnot_le_lt. intros H. apply Qle_bool_iff in H. congruence. }
  split; [apply Hiff |]. split.
  - unfold budget_status.
    now replace (Qle_bool x x) with true by (symmetry; apply Qle_bool_iff, Qle_refl).
  - intros eps Heps. apply Hiff.
    rewrite <- (Qplus_0_r x) at 1. apply Qplus_lt_r. exact Heps.
Qed.

Lemma budget_status_over_iff_witness :
  budget_status (5000 + (1 # 100)) 5000 = OverBudget.
Proof.
  destruct (budget_status_over_iff 5000 5000) as (_ & _ & H).
  apply (H (1 # 100)). reflexivity.
Defined.

(** ** Breakdown by category *)

Lemma filter_none {A : Type} (p : A -> bool) (l : list A) :
  List.existsb p l = false -> List.filter p l = [].
Proof.
  induction l as [| x l IH]; simpl; [reflexivity |].
  destruct (p x); simpl; [discriminate | exact IH].
Qed.

Lemma is_Income_not_Expense (r : Row) : is_Income r = true -> is_Expense r = false.
Proof.
  unfold is_Income, is_Expense, cell_is. destruct (Type_ r) as [| s]; [reflexivity |].
  intros H. apply String.eqb_eq in H. now subst.
Qed.

Lemma values_with_row (cols : list string) (before after : list (nat * Row)) (r : nat * Row) :
  values (with_row cols before r after)
  = (List.map snd before ++ snd r :: List.map snd after)%list.
Proof. unfold values, with_row. simpl. now rewrite map_app. Qed.

Lemma values_without_row (cols : list string) (before after : list (nat * Row)) :
  values (without_row cols before after) = (List.map snd before ++ List.map snd after)%list.
Proof. unfold values, without_row. simpl. now rewrite map_app. Qed.

(** C8: the breakdown has an entry for a category exactly when some row
    whose Type is "Expense" has that category, and the entry is the sum of
    the amounts of the Expense rows of that category; a row whose Type is
    "Income" changes no entry, wherever it stands; a ledger without Expense
    rows has an empty breakdown.  The rows are tested and the amounts added
    in so many words, without the masks and the sum of the code. *)
Theorem expense_by_category_only_expenses (df : DataFrame) :
  (forall c : string,
     expense_by_category df !! c
     = if List.existsb (fun r => typed "Expense" r && categorised c r) (values df)
       then Some (amount_total (fun r => typed "Expense" r && categorised c r) (values df))
       else None) /\
  (forall (cols : list string) (before after : list (nat * Row)) (r : nat * Row),
     Type_ (snd r) = Str "Income" ->
     expense_by_category (with_row cols before r after)
     = expense_by_category (without_row cols before after)) /\
  (Forall (fun r => Type_ r <> Str "Expense") (values df) -> expense_by_category df = ∅).
Proof.
  split; [| split].
  - assert (forall p l, sum_where p l = amount_total p l) as Hsum by sum_row_by_row.
    intros c. rewrite expense_by_category_lookup, Hsum.
    rewrite (existsb_ext' _ (fun r => typed "Expense" r && categorised c r))
      by (intros r; reflexivity).
    now rewrite (amount_total_ext _ (fun r => typed "Expense" r && categorised c r))
      by (intros r; reflexivity).
  - intros cols before after r Hr. unfold expense_by_category.
    rewrite !values_select, values_with_row, values_without_row.
    rewrite filter_skip; [reflexivity |].
    unfold is_Expense. now rewrite Hr.
  - intros H. unfold expense_by_category. rewrite values_select.
    rewrite filter_none; [reflexivity |].
    induction H as [| r rs Hr _ IH]; simpl; [reflexivity |].
    rewrite IH, orb_false_r. unfold is_Expense, cell_is.
    destruct (Type_ r) as [| s]; [reflexivity |].
    apply String.eqb_neq. congruence.
Qed.

Lemma expense_by_category_only_expenses_witness :
  expense_by_category salary_food_ledger !! "Food" = Some 40 /\
  (if List.existsb (fun r => typed "Expense" r && categorised "Food" r)
                   (values salary_food_ledger)
   then Some (amount_total (fun r => typed "Expense" r && categorised "Food" r)
                           (values salary_food_ledger))
   else None) = Some 40 /\
  expense_by_category salary_food_ledger !! "Salary" = None /\
  expense_by_category (with_row base_columns [] (0%nat, salary_row) [(1%nat, food_row)])
  = expense_by_category (without_row base_columns [] [(1%nat, food_row)]) /\
  expense_by_category {| columns := base_columns; rows := [(0%nat, salary_row)] |} = ∅.
Proof.
  assert (expense_by_category salary_food_ledger !! "Food" = Some 40) as Hcode
    by (vm_compute; reflexivity).
  destruct (expense_by_category_only_expenses salary_food_ledger) as (Hlookup & Hskip & _).
  split; [exact Hcode |].
  split; [rewrite <- (Hlookup "Food"); exact Hcode |].
  split; [rewrite Hlookup; reflexivity |].
  split; [apply Hskip; reflexivity |].
  apply (expense_by_category_only_expenses
           {| columns := base_columns; rows := [(0%nat, salary_row)] |}).
  repeat constructor. discriminate.
Defined.

(** The example of the specification: Salary is no entry, Food is 40. *)
Example expense_by_category_salary_food :
  expense_by_category salary_food_ledger !! "Food" = Some 40 /\
  expense_by_category salary_food_ledger !! "Salary" = None /\
  dom (expense_by_category salary_food_ledger) = {[ "Food" ]}.
Proof. repeat split; vm_compute; reflexivity. Qed.

(** ** Rows of another type *)

Lemma select_select (p q : Row -> bool) (df : DataFrame) :
  select q (select p df) = select (fun r => p r && q r) df.
Proof.
  unfold select. simpl. f_equal.
  induction (rows df) as [| [i r] rs IH]; simpl; [reflexivity |].
  destruct (p r); simpl; [destruct (q r) |]; now rewrite IH.
Qed.

Lemma Amount_sum_select_skip (q : Row -> bool) (cols : list string)
    (before after : list (nat * Row)) (r : nat * Row) :
  q (snd r) = false ->
  Amount_sum (select q (with_row cols before r after))
  = Amount_sum (select q (without_row cols before after)).
Proof.
  intros H. rewrite !Amount_sum_select, values_with_row, values_without_row.
  now apply sum_where_skip.
Qed.

Lemma existsb_skip {A : Type} (p : A -> bool) (l1 l2 : list A) (x : A) :
  p x = false -> List.existsb p (l1 ++ x :: l2) = List.existsb p (l1 ++ l2).
Proof.
  intros H. rewrite !existsb_app. simpl. now rewrite H.
Qed.

Lemma groupby_sum_skip {K : Type} `{Countable K} (key : Row -> option K) (k : K)
    (l1 l2 : list Row) (r : Row) :
  key r <> Some k ->
  groupby_sum key (l1 ++ r :: l2) !! k = groupby_sum key (l1 ++ l2) !! k.
Proof.
  intros Hne. rewrite !groupby_sum_lookup.
  assert (bool_decide (key r = Some k) = false) as Hb by now apply bool_decide_eq_false_2.
  now rewrite existsb_skip, sum_where_skip by exact Hb.
Qed.

Lemma Month_Type_key_type (r : Row) (m t : string) :
  Month_Type_key r = Some (m, t) -> Type_ r = Str t /\ Month r = Str m.
Proof.
  unfold Month_Type_key. destruct (Month r), (Type_ r); try discriminate.
  now intros [= -> ->].
Qed.

Lemma cell_is_refl (s : string) : cell_is s (Str s) = true.
Proof. simpl. apply String.eqb_refl. Qed.

(** C9 as stated fails: a row of type "Bonus" is neither Income nor
    Expense, yet it makes a group of its own in the monthly series and is
    counted among today's transactions. *)
Lemma other_type_row_in_series_and_count :
  is_Income bonus_row = false /\ is_Expense bonus_row = false /\
  (exists m : gmap (string * string) Q,
     shown_monthly_groups (render iso_datetime (Some bonus_file) mid_march 5000 NoEvent)
       = Some m /\
     m !! ("2024-03", "Bonus") = Some 10) /\
  shown_monthly_groups
    (render iso_datetime (Some {| header := base_columns; lines := [] |}) mid_march 5000 NoEvent)
    = Some ∅ /\
  shown_today_count (render iso_datetime (Some bonus_file) mid_march 5000 NoEvent) = Some 1%nat /\
  shown_today_count
    (render iso_datetime (Some {| header := base_columns; lines := [] |}) mid_march 5000 NoEvent)
    = Some 0%nat.
Proof.
  split; [reflexivity |]. split; [reflexivity |]. split.
  - eexists. split; [vm_compute; reflexivity | vm_compute; reflexivity].
  - repeat split; vm_compute; reflexivity.
Qed.

(** C9, amended: a row whose Type is neither "Income" nor "Expense" stays
    in the ledger and adds to neither the income total nor the expense
    total, hence not to the balance, to today's income, expense and net, to
    the monthly expense, to the Income and Expense entries of the monthly
    series, or to the category breakdown.  It is still counted among
    today's transactions when it is dated today, and when its Type and
    Month are text it has an entry of its own in the monthly series. *)
Theorem other_type_row_adds_to_no_total (cols : list string)
    (before after : list (nat * Row)) (r : nat * Row) :
  is_Income (snd r) = false ->
  is_Expense (snd r) = false ->
  In r (rows (with_row cols before r after)) /\
  totals (with_row cols before r after) = totals (without_row cols before after) /\
  (forall today : Timestamp,
     totals (df_today today (with_row cols before r after))
     = totals (df_today today (without_row cols before after))) /\
  (forall m : string,
     monthly_expense m (with_row cols before r after)
     = monthly_expense m (without_row cols before after)) /\
  (forall m : string,
     monthly_groups (with_row cols before r after) !! (m, "Income")
     = monthly_groups (without_row cols before after) !! (m, "Income") /\
     monthly_groups (with_row cols before r after) !! (m, "Expense")
     = monthly_groups (without_row cols before after) !! (m, "Expense")) /\
  expense_by_category (with_row cols before r after)
  = expense_by_category (without_row cols before after) /\
  (forall today : Timestamp,
     on_day today (snd r) = true ->
     len (df_today today (with_row cols before r after))
     = S (len (df_today today (without_row cols before after)))) /\
  (forall m t : string,
     Month (snd r) = Str m -> Type_ (snd r) = Str t ->
     is_Some (monthly_groups (with_row cols before r after) !! (m, t))).
Proof.
  intros Hi He.
  assert (forall q : Row -> bool,
            (forall x, q x = true -> is_Income x = true \/ is_Expense x = true) ->
            Amount_sum (select q (with_row cols before r after))
            = Amount_sum (select q (without_row cols before after))) as Hsum.
  { intros q Hq. apply Amount_sum_select_skip.
    destruct (q (snd r)) eqn:E; [| reflexivity].
    destruct (Hq _ E); congruence. }
  split; [apply in_or_app; right; now left |]. split.
  { unfold totals, balance, total_income, total_expense.
    now rewrite !(Hsum is_Income), !(Hsum is_Expense) by auto. }
  split.
  { intros today. unfold totals, balance, total_income, total_expense, df_today.
    rewrite !select_select.
    rewrite !(Hsum (fun x => on_day today x && is_Income x)),
            !(Hsum (fun x => on_day today x && is_Expense x)); [reflexivity | |];
      intros x Hx; apply andb_true_iff in Hx; tauto. }
  split.
  { intros m. unfold monthly_expense. apply Hsum.
    intros x Hx. apply andb_true_iff in Hx. tauto. }
  split.
  { intros m. unfold monthly_groups. rewrite values_with_row, values_without_row.
    split; apply groupby_sum_skip; intros Hk;
      apply Month_Type_key_type in Hk; destruct Hk as [Ht _].
    - unfold is_Income in Hi. rewrite Ht, cell_is_refl in Hi. discriminate.
    - unfold is_Expense in He. rewrite Ht, cell_is_refl in He. discriminate. }
  split.
  { unfold expense_by_category.
    rewrite !values_select, values_with_row, values_without_row.
    now rewrite filter_skip by exact He. }
  split.
  { intros today Hd. unfold len, df_today, select, with_row, without_row. simpl.
    rewrite !List.filter_app. simpl. rewrite Hd. rewrite !length_app. simpl. lia. }
  intros m t Hm Ht. unfold monthly_groups. rewrite groupby_sum_lookup.
  rewrite values_with_row.
  assert (bool_decide (Month_Type_key (snd r) = Some (m, t)) = true) as Hb.
  { apply bool_decide_eq_true_2. unfold Month_Type_key. now rewrite Hm, Ht. }
  replace (List.existsb _ _) with true; [eauto |].
  symmetry. rewrite existsb_app. simpl. rewrite Hb. now rewrite orb_true_r.
Qed.

Lemma other_type_row_adds_to_no_total_witness :
  totals (with_row base_columns [(0%nat, salary_row)] (1%nat, bonus_row) [(2%nat, food_row)])
  = totals (without_row base_columns [(0%nat, salary_row)] [(2%nat, food_row)]).
Proof.
  apply (other_type_row_adds_to_no_total base_columns
           [(0%nat, salary_row)] [(2%nat, food_row)] (1%nat, bonus_row));
    reflexivity.
Defined.

(** ** Amounts on the two forms *)




(** ** The Month column in the file *)

(** Every update writes the Month column into the file, and the add form
    then fails on the five columns it finds. *)
Lemma add_after_update_raises :
  file_after (render iso_datetime (Some food_salary_file) mid_march 5000
                     (UpdateSubmitted 0 500 Income "Salary" day_0302))
    <> None /\
  option_map header
    (file_after (render iso_datetime (Some food_salary_file) mid_march 5000
                        (UpdateSubmitted 0 500 Income "Salary" day_0302)))
    = Some ["Date"; "Type"; "Amount"; "Category"; "Month"] /\
  render iso_datetime
         (file_after (render iso_datetime (Some food_salary_file) mid_march 5000
                             (UpdateSubmitted 0 500 Income "Salary" day_0302)))
         mid_march 5000 (AddSubmitted 12 Expense "Tea" day_0303)
    = Raise ValueError.
Proof.
  split; [vm_compute; discriminate |].
  split; vm_compute; reflexivity.
Qed.

(** When the lines of the file are already in display order and all have a
    date, a row's label is its display position: the case in which update
    and delete reach the row that is shown. *)
Lemma display_position_is_label (df : DataFrame) :
  StronglySorted date_desc (rows df) ->
  index df = List.seq 0 (len df) ->
  index (sort_values_Date_desc df) = index (reset_index (sort_values_Date_desc df)).
Proof.
  intros Hs Hi. unfold sort_values_Date_desc, reset_index, index. simpl.
  rewrite sort_desc_sorted_id by exact Hs.
  rewrite enumerate_from_fst. unfold values. rewrite length_map. exact Hi.
Qed.

(** * Further properties of the script *)

(** ** The table that [load_data] returns *)

Lemma load_spec_label_bounds (parse_datetime : string -> option Timestamp) (with_month : bool)
    (i : nat) (ls : list CsvLine) (j : nat) :
  In j (List.map fst (load_spec parse_datetime with_month i ls)) ->
  (i <= j < i + List.length ls)%nat.
Proof.
  intros H. apply in_map_iff in H. destruct H as ([j' r] & Hj & Hin). simpl in Hj. subst j'.
  apply load_spec_labels in Hin. destruct Hin as (l & t & Hn & Hle & _).
  split; [exact Hle |].
  assert (j - i < List.length ls)%nat by (apply nth_error_Some; congruence).
  lia.
Qed.

Lemma load_spec_labels_increasing (parse_datetime : string -> option Timestamp)
    (with_month : bool) (i : nat) (ls : list CsvLine) :
  StronglySorted lt (List.map fst (load_spec parse_datetime with_month i ls)).
Proof.
  revert i; induction ls as [| l ls IH]; intros i; simpl; [constructor |].
  destruct (parsed_date parse_datetime l); [| apply IH].
  simpl. constructor; [apply IH |].
  apply List.Forall_forall. intros j Hj. apply load_spec_label_bounds in Hj. lia.
Qed.

Lemma StronglySorted_lt_NoDup (l : list nat) : StronglySorted lt l -> List.NoDup l.
Proof.
  induction 1 as [| x l Hs IH Hx]; constructor; [| exact IH].
  intros Hin. rewrite List.Forall_forall in Hx. specialize (Hx x Hin). lia.
Qed.

Lemma load_data_labels (parse_datetime : string -> option Timestamp)
    (file : option CsvFile) (df : DataFrame) :
  load_data parse_datetime file = Ok df ->
  StronglySorted lt (index df) /\
  forall i, In i (index df) ->
    exists f, file = Some f /\ (i < List.length (lines f))%nat.
Proof.
  destruct file as [f |].
  - destruct (has_column "Date" (header f)) eqn:E.
    + rewrite (load_data_Some parse_datetime f E). intros [= <-]. unfold index. simpl.
      split; [apply load_spec_labels_increasing |].
      intros i Hi. exists f. split; [reflexivity |].
      apply load_spec_label_bounds in Hi. lia.
    + unfold load_data, convert_Date. simpl. rewrite E. discriminate.
  - intros [= <-]. unfold index. simpl. split; [constructor | tauto].
Qed.

(** X1: a table that [load_data] returned has a Date column, a timestamp
    in every row, and labels that are line numbers of the file in
    increasing order; converting its dates and dropping missing ones once
    more, as lines 48 and 49 do, leaves it as it is. *)
Theorem loaded_table_is_clean (parse_datetime : string -> option Timestamp)
    (file : option CsvFile) (df : DataFrame) :
  load_data parse_datetime file = Ok df ->
  has_column "Date" (columns df) = true /\
  Forall (fun r => exists t, Date r = Time t) (values df) /\
  StronglySorted lt (index df) /\
  (forall i, In i (index df) -> exists f, file = Some f /\ (i < List.length (lines f))%nat) /\
  clean_dates parse_datetime df = Ok df.
Proof.
  intros H. destruct (load_data_inv parse_datetime file df H) as [Hc Hd].
  destruct (load_data_labels parse_datetime file df H) as [Hs Hb].
  split; [exact Hc |]. split.
  - unfold values. apply Forall_map. exact Hd.
  - split; [exact Hs |]. split; [exact Hb |]. now apply clean_dates_dated.
Qed.

Lemma loaded_table_is_clean_witness :
  index {| columns := base_columns;
           rows := load_spec iso_datetime false 0 (lines damaged_file) |} = [1%nat] /\
  clean_dates iso_datetime
    {| columns := base_columns; rows := load_spec iso_datetime false 0 (lines damaged_file) |}
  = Ok {| columns := base_columns;
          rows := load_spec iso_datetime false 0 (lines damaged_file) |}.
Proof.
  split; [reflexivity |].
  apply (loaded_table_is_clean iso_datetime (Some damaged_file)). reflexivity.
Defined.

(** ** Positions that reach no row *)

(** X2: when the position typed is in range but no row has it as its
    label (the line of that number had no date and was dropped on load),
    the delete branch raises KeyError and saves nothing. *)
Theorem delete_missing_label_raises (parse_datetime : string -> option Timestamp)
    (file : option CsvFile) (df : DataFrame) (now : Timestamp) (limit : Q) (i : nat) :
  load_data parse_datetime file = Ok df ->
  (i < len df)%nat ->
  ~ In i (index df) ->
  render parse_datetime file now limit (DeleteSubmitted i) = Raise KeyError.
Proof.
  intros Hload Hi Hnin.
  rewrite (render_delete parse_datetime now limit file df i Hload Hi).
  rewrite drop_absent; [reflexivity |].
  intros Hin. apply Hnin. now apply (proj2 (index_sorted_assign_Month df i)).
Qed.

Lemma delete_missing_label_raises_witness :
  render iso_datetime (Some gap_file) mid_march 5000 (DeleteSubmitted 0) = Raise KeyError.
Proof.
  apply (delete_missing_label_raises iso_datetime (Some gap_file)
           {| columns := base_columns;
              rows := load_spec iso_datetime false 0 (lines gap_file) |}).
  - reflexivity.
  - vm_compute. lia.
  - vm_compute. intros [H | H]; [discriminate H | exact H].
Defined.

Lemma filter_length_lt {A : Type} (p : A -> bool) (l : list A) (i : nat) (x : A) :
  nth_error l i = Some x -> p x = false ->
  (List.length (List.filter p l) < List.length l)%nat.
Proof.
  revert i; induction l as [| y l IH]; intros i Hn Hp; [now destruct i |].
  destruct i as [| i]; simpl in *.
  - injection Hn as ->. rewrite Hp. pose proof (List.filter_length_le p l). lia.
  - specialize (IH i Hn Hp). destruct (p y); simpl; lia.
Qed.

Lemma load_spec_length (parse_datetime : string -> option Timestamp) (with_month : bool)
    (i : nat) (ls : list CsvLine) :
  List.length (load_spec parse_datetime with_month i ls)
  = List.length (List.filter (has_date parse_datetime) ls).
Proof.
  revert i; induction ls as [| l ls IH]; intros i; simpl; [reflexivity |].
  unfold has_date at 1. destruct (parsed_date parse_datetime l); simpl; now rewrite IH.
Qed.

Lemma len_loaded (parse_datetime : string -> option Timestamp) (f : CsvFile) (df : DataFrame) :
  load_data parse_datetime (Some f) = Ok df ->
  len df = List.length (List.filter (has_date parse_datetime) (lines f)).
Proof.
  intros H. destruct (has_column "Date" (header f)) eqn:E.
  - rewrite (load_data_Some parse_datetime f E) in H. injection H as <-.
    unfold len. simpl. apply load_spec_length.
  - unfold load_data, convert_Date in H. simpl in H. rewrite E in H. discriminate.
Qed.

(** A position in range that is no label is the number of a line that had
    no date. *)
Lemma missing_label_undated (parse_datetime : string -> option Timestamp)
    (f : CsvFile) (df : DataFrame) (i : nat) :
  load_data parse_datetime (Some f) = Ok df ->
  (i < len df)%nat ->
  ~ In i (index df) ->
  exists l, nth_error (lines f) i = Some l /\ has_date parse_datetime l = false.
Proof.
  intros Hload Hi Hnin.
  pose proof (len_loaded parse_datetime f df Hload) as Hlen.
  pose proof (List.filter_length_le (has_date parse_datetime) (lines f)) as Hle.
  destruct (nth_error (lines f) i) as [l |] eqn:Hn;
    [| apply nth_error_None in Hn; lia].
  exists l. split; [reflexivity |].
  destruct (has_column "Date" (header f)) eqn:E.
  - rewrite (load_data_Some parse_datetime f E) in Hload. injection Hload as <-.
    unfold has_date. destruct (parsed_date parse_datetime l) as [t |] eqn:Hp; [| reflexivity].
    exfalso. apply Hnin. unfold index. simpl. apply in_map_iff.
    exists (i, set_Date (Time t) (read_line (has_column "Month" (header f)) l)).
    split; [reflexivity |]. apply load_spec_labels.
    exists l, t. rewrite Nat.sub_0_r. repeat split; auto; lia.
  - unfold load_data, convert_Date in Hload. simpl in Hload. rewrite E in Hload. discriminate.
Qed.

(** X3: in the same situation the update branch changes no row of the
    table: it saves the rows as they were, in display order (latest date
    first, rows of one date in any order), and one new row after them,
    made of the values of the form.  The saved file has one
    line more than the table had rows; it is not longer than the file was,
    the line without a date being gone. *)
Theorem update_missing_label_appends (parse_datetime : string -> option Timestamp)
    (f : CsvFile) (df : DataFrame) (now : Timestamp) (limit : Q) (i : nat)
    (a : Q) (ty : TxType) (c : string) (d : Timestamp) :
  load_data parse_datetime (Some f) = Ok df ->
  (i < len df)%nat ->
  ~ In i (index df) ->
  exists f' : CsvFile,
    render parse_datetime (Some f) now limit (UpdateSubmitted i a ty c d)
      = Ok (Some f', Rerun) /\
    List.length (lines f') = S (len df) /\
    (List.length (lines f') <= List.length (lines f))%nat /\
    exists (b : bool) (shown : list (nat * Row)),
      Permutation shown (rows (assign_Month df)) /\
      StronglySorted date_desc shown /\
      List.map line_key (lines f')
      = (List.map (fun ir => written_key b (snd ir)) shown
         ++ [(format_timestamp b (normalize d), type_name ty, Some a, c)])%list.
Proof.
  intros Hload Hi Hnin.
  assert (~ In i (index (sort_values_Date_desc (assign_Month df)))) as Hnin'.
  { intros Hin. apply Hnin. now apply (proj2 (index_sorted_assign_Month df i)). }
  assert (len df < List.length (lines f))%nat as Hshort.
  { destruct (missing_label_undated parse_datetime f df i Hload Hi Hnin) as (l & Hn & Hl).
    rewrite (len_loaded parse_datetime f df Hload).
    exact (filter_length_lt _ _ i l Hn Hl). }
  assert (forall x : nat * Row,
            List.length (lines (to_csv
              {| columns := columns (sort_values_Date_desc (assign_Month df));
                 rows := rows (sort_values_Date_desc (assign_Month df)) ++ [x] |}))
            = S (len df)) as Hcount.
  { intros x. unfold to_csv. cbn [lines].
    rewrite length_map, values_mk, length_map, length_app.
    unfold sort_values_Date_desc, assign_Month. cbn [rows List.length].
    rewrite sort_desc_length, length_map. unfold len. lia. }
  eexists.
  split; [apply (render_update parse_datetime now limit (Some f) df i a ty c d Hload Hi) |].
  rewrite loc_set_absent by exact Hnin'.
  split; [apply Hcount |]. split; [rewrite Hcount; lia |].
  eexists. exists (sort_desc (rows (assign_Month df))).
  split; [apply sort_desc_perm |]. split; [apply sort_desc_sorted |].
  rewrite to_csv_line_keys, !values_mk, !map_app, map_map. reflexivity.
Qed.

Lemma update_missing_label_appends_witness :
  exists f' : CsvFile,
    render iso_datetime (Some gap_file) mid_march 5000
           (UpdateSubmitted 0 600 Income "Salary" day_0302) = Ok (Some f', Rerun) /\
    List.length (lines f') = 2%nat.
Proof.
  destruct (update_missing_label_appends iso_datetime gap_file
              {| columns := base_columns;
                 rows := load_spec iso_datetime false 0 (lines gap_file) |}
              mid_march 5000 0 600 Income "Salary" day_0302) as (f' & Hr & Hl & _).
  - reflexivity.
  - vm_compute. lia.
  - vm_compute. intros [H | H]; [discriminate H | exact H].
  - exists f'. split; [exact Hr | exact Hl].
Defined.

(** ** The row an update or a delete reaches *)

Lemma filter_keeps_other_labels (i : nat) (l : list (nat * Row)) :
  ~ In i (List.map fst l) ->
  List.filter (fun ir => negb (Nat.eqb (fst ir) i)) l = l.
Proof.
  induction l as [| [j r] l IH]; simpl; [reflexivity |].
  intros H. destruct (Nat.eqb_spec j i) as [-> | Hne]; simpl.
  - exfalso. apply H. now left.
  - rewrite IH; [reflexivity |]. intros Hin. apply H. now right.
Qed.

Lemma map_keeps_other_labels (i : nat) (f : Row -> Row) (l : list (nat * Row)) :
  ~ In i (List.map fst l) ->
  List.map (fun ir => if Nat.eqb (fst ir) i then (fst ir, f (snd ir)) else ir) l = l.
Proof.
  induction l as [| [j r] l IH]; simpl; [reflexivity |].
  intros H. destruct (Nat.eqb_spec j i) as [-> | Hne]; simpl.
  - exfalso. apply H. now left.
  - rewrite IH; [reflexivity |]. intros Hin. apply H. now right.
Qed.

Lemma NoDup_labels_split (i : nat) (r : Row) (before after : list (nat * Row)) :
  List.NoDup (List.map fst (before ++ (i, r) :: after)) ->
  ~ In i (List.map fst before) /\ ~ In i (List.map fst after).
Proof.
  rewrite map_app. simpl. intros H.
  apply List.NoDup_remove_2 in H. split; intros Hin; apply H; apply in_or_app; tauto.
Qed.

Lemma sorted_labels_NoDup (df : DataFrame) :
  List.NoDup (index df) ->
  List.NoDup (List.map fst (sort_desc (rows (assign_Month df)))).
Proof.
  intros H. eapply Permutation_NoDup.
  - apply Permutation_map. symmetry. apply sort_desc_perm.
  - unfold assign_Month. simpl. rewrite map_map. exact H.
Qed.

Lemma label_split (i : nat) (l : list (nat * Row)) :
  In i (List.map fst l) -> exists before r after, l = (before ++ (i, r) :: after)%list.
Proof.
  intros H. apply in_map_iff in H. destruct H as ([j r] & Hj & Hin). simpl in Hj. subst j.
  apply in_split in Hin. destruct Hin as (before & after & ->). now exists before, r, after.
Qed.

(** The delete branch on the sorted table, when the label exists and
    labels are distinct. *)
Lemma drop_splits (i : nat) (cols : list string) (r : Row) (before after : list (nat * Row)) :
  List.NoDup (List.map fst (before ++ (i, r) :: after)) ->
  drop i {| columns := cols; rows := before ++ (i, r) :: after |}
  = Ok {| columns := cols; rows := before ++ after |}.
Proof.
  intros Hnd. destruct (NoDup_labels_split i r before after Hnd) as [Hb Ha].
  rewrite drop_present.
  - simpl. rewrite List.filter_app. simpl. rewrite Nat.eqb_refl. simpl.
    now rewrite !filter_keeps_other_labels.
  - unfold index. simpl. rewrite map_app. apply in_or_app. right. now left.
Qed.

Lemma loc_set_splits (i : nat) (f : Row -> Row) (cols : list string) (r : Row)
    (before after : list (nat * Row)) :
  List.NoDup (List.map fst (before ++ (i, r) :: after)) ->
  loc_set i f {| columns := cols; rows := before ++ (i, r) :: after |}
  = {| columns := cols; rows := before ++ (i, f r) :: after |}.
Proof.
  intros Hnd. destruct (NoDup_labels_split i r before after Hnd) as [Hb Ha].
  rewrite loc_set_present.
  - simpl. rewrite map_app. simpl. rewrite Nat.eqb_refl.
    now rewrite !map_keeps_other_labels.
  - unfold index. simpl. rewrite map_app. apply in_or_app. right. now left.
Qed.

Lemma render_delete_splits (parse_datetime : string -> option Timestamp)
    (file : option CsvFile) (df : DataFrame) (now : Timestamp) (limit : Q) (i : nat) :
  load_data parse_datetime file = Ok df ->
  (i < len df)%nat ->
  In i (index df) ->
  exists (before after : list (nat * Row)) (r : Row),
    sort_desc (rows (assign_Month df)) = (before ++ (i, r) :: after)%list /\
    render parse_datetime file now limit (DeleteSubmitted i)
    = Ok (save_data {| columns := columns (assign_Month df); rows := before ++ after |}, Rerun).
Proof.
  intros Hload Hi Hin.
  destruct (load_data_labels parse_datetime file df Hload) as [Hs _].
  pose proof (sorted_labels_NoDup df (StronglySorted_lt_NoDup _ Hs)) as Hnd.
  destruct (label_split i (sort_desc (rows (assign_Month df)))) as (before & r & after & Hsplit).
  { apply (proj1 (index_sorted_assign_Month df i)) in Hin. exact Hin. }
  exists before, after, r. split; [exact Hsplit |].
  rewrite (render_delete parse_datetime now limit file df i Hload Hi).
  unfold sort_values_Date_desc. rewrite Hsplit in *.
  now rewrite drop_splits by exact Hnd.
Qed.

Lemma render_update_splits (parse_datetime : string -> option Timestamp)
    (file : option CsvFile) (df : DataFrame) (now : Timestamp) (limit : Q) (i : nat)
    (a : Q) (ty : TxType) (c : string) (d : Timestamp) :
  load_data parse_datetime file = Ok df ->
  (i < len df)%nat ->
  In i (index df) ->
  exists (before after : list (nat * Row)) (r : Row),
    sort_desc (rows (assign_Month df)) = (before ++ (i, r) :: after)%list /\
    render parse_datetime file now limit (UpdateSubmitted i a ty c d)
    = Ok (save_data {| columns := columns (assign_Month df);
                       rows := before ++ (i, edited a ty c d r) :: after |}, Rerun).
Proof.
  intros Hload Hi Hin.
  destruct (load_data_labels parse_datetime file df Hload) as [Hs _].
  pose proof (sorted_labels_NoDup df (StronglySorted_lt_NoDup _ Hs)) as Hnd.
  destruct (label_split i (sort_desc (rows (assign_Month df)))) as (before & r & after & Hsplit).
  { apply (proj1 (index_sorted_assign_Month df i)) in Hin. exact Hin. }
  exists before, after, r. split; [exact Hsplit |].
  rewrite (render_update parse_datetime now limit file df i a ty c d Hload Hi).
  unfold sort_values_Date_desc. rewrite Hsplit in *.
  now rewrite loc_set_splits by exact Hnd.
Qed.





(** ** A file already in display order *)

Lemma assign_Month_sorted (df : DataFrame) :
  StronglySorted date_desc (rows df) ->
  sort_desc (rows (assign_Month df)) = rows (assign_Month df).
Proof.
  intros Hs. apply sort_desc_sorted_id. unfold assign_Month. simpl.
  induction Hs as [| x l Hs IH Hx]; simpl; constructor; [exact IH |].
  apply List.Forall_forall. intros y Hy. apply in_map_iff in Hy.
  destruct Hy as (z & <- & Hz). rewrite List.Forall_forall in Hx.
  specialize (Hx z Hz). exact Hx.
Qed.

Lemma index_assign_Month (df : DataFrame) : index (assign_Month df) = index df.
Proof. unfold index, assign_Month. simpl. now rewrite map_map. Qed.

Lemma seq_split_position (i n : nat) (r : Row) (before after : list (nat * Row)) :
  List.map fst (before ++ (i, r) :: after) = List.seq 0 n -> List.length before = i.
Proof.
  intros H.
  assert (nth_error (List.map fst (before ++ (i, r) :: after)) (List.length before) = Some i)
    as Hn.
  { rewrite map_app, nth_error_app2 by (rewrite length_map; lia).
    now rewrite length_map, Nat.sub_diag. }
  rewrite H in Hn.
  assert (List.length before < List.length (List.seq 0 n))%nat as Hlt
    by (apply nth_error_Some; congruence).
  rewrite length_seq in Hlt.
  rewrite nth_error_nth' with (d := 0%nat) in Hn by (now rewrite length_seq).
  rewrite seq_nth in Hn by exact Hlt. simpl in Hn. congruence.
Qed.

Lemma split_firstn_skipn {A : Type} (before after : list A) (x : A) :
  firstn (List.length before) (before ++ x :: after) = before /\
  skipn (S (List.length before)) (before ++ x :: after) = after /\
  nth_error (before ++ x :: after) (List.length before) = Some x.
Proof.
  split; [| split].
  - rewrite firstn_app, Nat.sub_diag, firstn_all. simpl. now rewrite app_nil_r.
  - rewrite skipn_app. replace (S (List.length before) - List.length before)%nat with 1%nat by lia.
    rewrite skipn_all2 by lia. reflexivity.
  - rewrite nth_error_app2 by lia. now rewrite Nat.sub_diag.
Qed.

Lemma strictly_sorted_sorted (l : list (nat * Row)) :
  StronglySorted strictly_later_first l -> StronglySorted date_desc l.
Proof.
  induction 1 as [| x l Hs IH Hx]; constructor; [exact IH |].
  eapply List.Forall_impl; [| exact Hx].
  intros y Hy. unfold strictly_later_first, date_desc in *. lia.
Qed.

Section SortedFile.

Variable parse_datetime : string -> option Timestamp.
Variables (file : option CsvFile) (df : DataFrame) (now : Timestamp) (limit : Q) (i : nat).

Hypothesis Hload : load_data parse_datetime file = Ok df.
Hypothesis Hsorted : StronglySorted strictly_later_first (rows df).
Hypothesis Hindex : index df = List.seq 0 (len df).
Hypothesis Hrange : (i < len df)%nat.

Lemma sorted_label_exists : In i (index df).
Proof using Hindex Hrange. rewrite Hindex. apply in_seq. lia. Qed.

Lemma sorted_table_shown : values (table_shown df) = values (assign_Month df).
Proof using Hsorted.
  unfold table_shown, reset_index, sort_values_Date_desc.
  rewrite values_mk, enumerate_from_snd, values_mk.
  now rewrite (assign_Month_sorted df (strictly_sorted_sorted _ Hsorted)).
Qed.

Lemma sorted_split_position (before after : list (nat * Row)) (r : Row) :
  sort_desc (rows (assign_Month df)) = (before ++ (i, r) :: after)%list ->
  values (assign_Month df) = (List.map snd before ++ r :: List.map snd after)%list /\
  List.length (List.map snd before) = i.
Proof using Hsorted Hindex.
  intros Hsplit.
  rewrite (assign_Month_sorted df (strictly_sorted_sorted _ Hsorted)) in Hsplit. split.
  - unfold values. rewrite Hsplit, map_app. reflexivity.
  - rewrite length_map. apply (seq_split_position i (len df) r before after).
    rewrite <- Hsplit. fold (index (assign_Month df)).
    now rewrite index_assign_Month.
Qed.

Lemma sorted_table_delete :
  exists df' : DataFrame,
    render parse_datetime file now limit (DeleteSubmitted i) = Ok (save_data df', Rerun) /\
    values df' = (firstn i (values (table_shown df))
                  ++ skipn (S i) (values (table_shown df)))%list.
Proof using Hload Hsorted Hindex Hrange.
  destruct (render_delete_splits parse_datetime file df now limit i Hload Hrange
              sorted_label_exists) as (before & after & r & Hsplit & Hr).
  eexists. split; [exact Hr |].
  destruct (sorted_split_position before after r Hsplit) as [Hv Hl].
  rewrite sorted_table_shown, Hv, values_mk, map_app.
  destruct (split_firstn_skipn (List.map snd before) (List.map snd after) r) as (H1 & H2 & _).
  rewrite Hl in H1, H2. now rewrite H1, H2.
Qed.

Lemma sorted_table_update (a : Q) (ty : TxType) (c : string) (d : Timestamp) :
  exists (df' : DataFrame) (r : Row),
    render parse_datetime file now limit (UpdateSubmitted i a ty c d)
      = Ok (save_data df', Rerun) /\
    nth_error (values (table_shown df)) i = Some r /\
    values df' = (firstn i (values (table_shown df))
                  ++ edited a ty c d r :: skipn (S i) (values (table_shown df)))%list.
Proof using Hload Hsorted Hindex Hrange.
  destruct (render_update_splits parse_datetime file df now limit i a ty c d Hload Hrange
              sorted_label_exists) as (before & after & r & Hsplit & Hr).
  eexists. exists r. split; [exact Hr |].
  destruct (sorted_split_position before after r Hsplit) as [Hv Hl].
  rewrite sorted_table_shown, Hv, values_mk, map_app.
  destruct (split_firstn_skipn (List.map snd before) (List.map snd after) r) as (H1 & H2 & H3).
  rewrite Hl in H1, H2, H3. simpl. now rewrite H1, H2, H3.
Qed.

End SortedFile.

(** X7: when the lines of the file all have a date, no two the same, and
    already stand in display order (each line of a later date than the
    next), the position typed is the row shown there: delete takes exactly
    the row shown at that position out of the table, and update rewrites
    exactly that row, every other row staying as shown. *)
Theorem position_is_shown_row_when_sorted (parse_datetime : string -> option Timestamp)
    (file : option CsvFile) (df : DataFrame) (now : Timestamp) (limit : Q) (i : nat) :
  load_data parse_datetime file = Ok df ->
  StronglySorted strictly_later_first (rows df) ->
  index df = List.seq 0 (len df) ->
  (i < len df)%nat ->
  values (table_shown df) = values (assign_Month df) /\
  (exists df' : DataFrame,
     render parse_datetime file now limit (DeleteSubmitted i) = Ok (save_data df', Rerun) /\
     values df' = (firstn i (values (table_shown df))
                   ++ skipn (S i) (values (table_shown df)))%list) /\
  (forall a ty c d,
     exists (df' : DataFrame) (r : Row),
       render parse_datetime file now limit (UpdateSubmitted i a ty c d)
         = Ok (save_data df', Rerun) /\
       nth_error (values (table_shown df)) i = Some r /\
       values df' = (firstn i (values (table_shown df))
                     ++ edited a ty c d r :: skipn (S i) (values (table_shown df)))%list).
Proof.
  intros Hload Hs Hidx Hi. split; [| split].
  - exact (sorted_table_shown df Hs).
  - exact (sorted_table_delete parse_datetime file df now limit i Hload Hs Hidx Hi).
  - intros a ty c d.
    exact (sorted_table_update parse_datetime file df now limit i Hload Hs Hidx Hi a ty c d).
Qed.

Lemma position_is_shown_row_when_sorted_witness :
  exists df' : DataFrame,
    render iso_datetime (Some salary_food_file) mid_march 5000 (DeleteSubmitted 1)
      = Ok (save_data df', Rerun) /\
    values df' = [salary_row].
Proof.
  destruct (position_is_shown_row_when_sorted iso_datetime (Some salary_food_file)
              {| columns := base_columns;
                 rows := load_spec iso_datetime false 0 (lines salary_food_file) |}
              mid_march 5000 1) as (_ & (df' & Hr & Hv) & _).
  - reflexivity.
  - lazy - [strictly_later_first].
    apply SSorted_cons; [apply SSorted_cons; [apply SSorted_nil | apply List.Forall_nil] |].
    apply List.Forall_cons; [| apply List.Forall_nil].
    unfold strictly_later_first. vm_compute. reflexivity.
  - reflexivity.
  - vm_compute. lia.
  - exists df'. split; [exact Hr |]. rewrite Hv. reflexivity.
Defined.

(** ** The add form *)

Lemma has_column_app (name : string) (cols extra : list string) :
  has_column name cols = true -> has_column name (cols ++ extra) = true.
Proof. unfold has_column. rewrite existsb_app. intros ->. reflexivity. Qed.

Lemma is_na_type_name (ty : TxType) : is_na (type_name ty) = false.
Proof. destruct ty; reflexivity. Qed.

Lemma plain_text_not_na (s : string) : plain_text s = true -> is_na s = false.
Proof.
  destruct s as [| c s]; simpl; [discriminate |].
  rewrite !andb_true_iff, !negb_true_iff. tauto.
Qed.

(** X8: a transaction added on a four-column table is found when the file
    is loaded again: the add succeeds for every amount that is not
    negative, and the reloaded table has, under the label that follows the
    rows there were, a row with the date, type, amount and category of the
    form.  This is for a date that a Timestamp can hold, a whole amount of
    fewer than fifteen digits and a category of plain text, which the file
    gives back as written. *)
Theorem added_transaction_is_loaded (parse_datetime : string -> option Timestamp)
    (file : option CsvFile) (df : DataFrame) (now : Timestamp) (limit : Q)
    (a : Q) (ty : TxType) (c : string) (d : Timestamp) :
  (forall t : Timestamp,
     ts_valid t = true ->
     parse_datetime (format_timestamp false t) = Some t /\
     (secs t = 0%N -> parse_datetime (format_timestamp true t) = Some t)) ->
  load_data parse_datetime file = Ok df ->
  List.length (columns df) = 4%nat ->
  0 <= a ->
  whole_amount (Some a) = true ->
  ts_valid (normalize d) = true ->
  plain_text c = true ->
  exists (f' : CsvFile) (df' : DataFrame) (r : Row),
    render parse_datetime file now limit (AddSubmitted a ty c d) = Ok (Some f', Rerun) /\
    load_data parse_datetime (Some f') = Ok df' /\
    In (len df, r) (rows df') /\
    ledger_key r = (Time (normalize d), Str (type_name ty), Some a, Str c).
Proof.
  intros Hparse Hload Hcols Ha _ Hv Hplain.
  pose proof (plain_text_not_na c Hplain) as Hc.
  destruct (load_data_inv parse_datetime file df Hload) as [Hdate _].
  rewrite (render_add parse_datetime now limit file df a ty c d Hload).
  replace (Qle_bool 0 a) with true by (symmetry; now apply Qle_bool_iff).
  rewrite Hcols. simpl.
  eexists. eexists. eexists. split; [reflexivity |]. split.
  - unfold save_data. apply load_data_Some. exact Hdate.
  - cbn [rows]. split.
    + apply load_spec_labels.
      exists (write_line (forallb at_midnight (values df ++ [added a ty c d]))
                         (has_column "Month" (columns df)) (added a ty c d)),
             (normalize d).
      split; [| split; [lia | split; [| reflexivity]]].
      * unfold to_csv. cbn [lines]. rewrite values_mk, enumerate_from_snd, Nat.sub_0_r.
        rewrite map_app. rewrite nth_error_app2 by (rewrite length_map; unfold len, values;
                                                    rewrite length_map; lia).
        rewrite length_map. unfold len, values. rewrite length_map, Nat.sub_diag.
        reflexivity.
      * apply (parsed_date_write_line parse_datetime Hparse); [reflexivity | exact Hv |].
        intros _. reflexivity.
    + unfold ledger_key. simpl. unfold read_text.
      now rewrite is_na_type_name, Hc.
Qed.

Lemma added_transaction_is_loaded_witness :
  exists (f' : CsvFile) (df' : DataFrame) (r : Row),
    render iso_datetime (Some food_salary_file) mid_march 5000
           (AddSubmitted 200 Expense "Rent" day_0303) = Ok (Some f', Rerun) /\
    load_data iso_datetime (Some f') = Ok df' /\
    In (2%nat, r) (rows df') /\
    ledger_key r = (Time day_0303, Str "Expense", Some 200, Str "Rent").
Proof.
  apply (added_transaction_is_loaded iso_datetime (Some food_salary_file)
           {| columns := base_columns;
              rows := load_spec iso_datetime false 0 (lines food_salary_file) |}
           mid_march 5000 200 Expense "Rent" day_0303).
  - exact iso_datetime_format.
  - reflexivity.
  - reflexivity.
  - discriminate.
  - reflexivity.
  - reflexivity.
  - reflexivity.
Defined.

Lemma add_raises_on_other_width (parse_datetime : string -> option Timestamp)
    (f : CsvFile) (now : Timestamp) (limit : Q) (a : Q) (ty : TxType) (c : string)
    (d : Timestamp) :
  has_column "Date" (header f) = true ->
  List.length (header f) <> 4%nat ->
  0 <= a ->
  render parse_datetime (Some f) now limit (AddSubmitted a ty c d) = Raise ValueError.
Proof.
  intros Hd Hl Ha.
  rewrite (render_add parse_datetime now limit (Some f) _ a ty c d
             (load_data_Some parse_datetime f Hd)).
  replace (Qle_bool 0 a) with true by (symmetry; now apply Qle_bool_iff).
  cbn [columns]. now replace (List.length (header f) =? 4)%nat with false
    by (symmetry; now apply Nat.eqb_neq).
Qed.

Lemma columns_loc_set (i : nat) (f : Row -> Row) (df : DataFrame) :
  columns (loc_set i f df) = columns df.
Proof. unfold loc_set. now destruct (List.existsb (Nat.eqb i) (index df)). Qed.

Lemma columns_assign_Month_new (df : DataFrame) :
  has_column "Month" (columns df) = false ->
  columns (assign_Month df) = (columns df ++ ["Month"])%list.
Proof. intros H. unfold assign_Month. simpl. now rewrite H. Qed.

(** X9: on a table of the four columns, every update, and every delete of
    a label that exists, leaves a file on which the add form can no longer
    add: the file now has the Month column as a fifth, and building the
    new row from four values raises ValueError. *)
Theorem add_raises_after_update_or_delete (parse_datetime : string -> option Timestamp)
    (file : option CsvFile) (df : DataFrame) (now : Timestamp) (limit : Q) (i : nat) :
  load_data parse_datetime file = Ok df ->
  has_column "Month" (columns df) = false ->
  List.length (columns df) = 4%nat ->
  (i < len df)%nat ->
  (forall a ty c d,
     exists f' : CsvFile,
       render parse_datetime file now limit (UpdateSubmitted i a ty c d) = Ok (Some f', Rerun) /\
       forall now' limit' a' ty' c' d',
         0 <= a' ->
         render parse_datetime (Some f') now' limit' (AddSubmitted a' ty' c' d')
         = Raise ValueError) /\
  (In i (index df) ->
   exists f' : CsvFile,
     render parse_datetime file now limit (DeleteSubmitted i) = Ok (Some f', Rerun) /\
     forall now' limit' a' ty' c' d',
       0 <= a' ->
       render parse_datetime (Some f') now' limit' (AddSubmitted a' ty' c' d')
       = Raise ValueError).
Proof.
  intros Hload Hm Hl Hi.
  destruct (load_data_inv parse_datetime file df Hload) as [Hdate _].
  pose proof (columns_assign_Month_new df Hm) as Hcols.
  split.
  - intros a ty c d. eexists.
    split; [apply (render_update parse_datetime now limit file df i a ty c d Hload Hi) |].
    intros now' limit' a' ty' c' d' Ha'.
    apply add_raises_on_other_width; [| | exact Ha'];
      unfold to_csv; cbn [header]; rewrite columns_loc_set;
      unfold sort_values_Date_desc; cbn [columns]; rewrite Hcols.
    + now apply has_column_app.
    + rewrite length_app, Hl. simpl. lia.
  - intros Hin.
    destruct (render_delete_splits parse_datetime file df now limit i Hload Hi Hin)
      as (before & after & r & _ & Hr).
    eexists. split; [exact Hr |].
    intros now' limit' a' ty' c' d' Ha'.
    apply add_raises_on_other_width; [| | exact Ha'];
      unfold to_csv; cbn [header columns]; rewrite Hcols.
    + now apply has_column_app.
    + rewrite length_app, Hl. simpl. lia.
Qed.

Lemma add_raises_after_update_or_delete_witness :
  exists f' : CsvFile,
    render iso_datetime (Some food_salary_file) mid_march 5000 (DeleteSubmitted 0)
      = Ok (Some f', Rerun) /\
    render iso_datetime (Some f') mid_march 5000 (AddSubmitted 12 Expense "Tea" day_0303)
      = Raise ValueError.
Proof.
  destruct (add_raises_after_update_or_delete iso_datetime (Some food_salary_file)
              {| columns := base_columns;
                 rows := load_spec iso_datetime false 0 (lines food_salary_file) |}
              mid_march 5000 0) as (_ & Hdel).
  - reflexivity.
  - reflexivity.
  - reflexivity.
  - vm_compute. lia.
  - destruct Hdel as (f' & Hr & Hadd); [vm_compute; tauto |].
    exists f'. split; [exact Hr |]. apply Hadd. discriminate.
Defined.

(** ** The table shown *)

Lemma StronglySorted_values (l : list (nat * Row)) :
  StronglySorted date_desc l -> StronglySorted later_first (List.map snd l).
Proof.
  induction 1 as [| x l Hs IH Hx]; simpl; constructor; [exact IH |].
  apply List.Forall_forall. intros y Hy. apply in_map_iff in Hy.
  destruct Hy as (z & <- & Hz). rewrite List.Forall_forall in Hx. exact (Hx z Hz).
Qed.

(** Display order is order in time: on timestamps that pandas can hold,
    the rank compares year, then month, then day, then time of day. *)
Lemma ts_ord_chronological (a b : Timestamp) :
  ts_valid a = true -> ts_valid b = true ->
  ((ts_ord a < ts_ord b)%N <->
   (year a < year b)%N \/
   (year a = year b /\
    ((month a < month b)%N \/
     (month a = month b /\
      ((day a < day b)%N \/ (day a = day b /\ (secs a < secs b)%N)))))).
Proof.
  intros Ha Hb.
  assert (forall t, ts_valid t = true ->
            (month t <= 12 /\ day t <= 31 /\ secs t < 86400)%N) as Hbound.
  { intros t Ht. pose proof (ts_valid_bounds t Ht) as (_ & _ & _ & Hs).
    unfold ts_valid in Ht. rewrite !andb_true_iff in Ht.
    destruct Ht as [[[[[[_ _] _] Hm] _] Hd] _].
    apply N.leb_le in Hm, Hd.
    assert (days_in_month (year t) (month t) <= 31)%N.
    { unfold days_in_month.
      repeat match goal with
             | |- context [match ?x with _ => _ end] => destruct x
             end; lia. }
    lia. }
  destruct (Hbound a Ha) as (Hma & Hda & Hsa).
  destruct (Hbound b Hb) as (Hmb & Hdb & Hsb).
  unfold ts_ord. lia.
Qed.

Lemma values_assign_Month (df : DataFrame) :
  values (assign_Month df)
  = List.map (fun r => set_Month (month_of (Date r)) r) (values df).
Proof. unfold values, assign_Month. simpl. now rewrite !map_map. Qed.

(** *** The signs of the sums *)

Lemma sum_where_positive (p : Row -> bool) (rs : list Row) :
  Forall (fun r => p r = true -> exists a, Amount r = Some a /\ 0 < a) rs ->
  0 <= sum_where p rs /\ (List.existsb p rs = true -> 0 < sum_where p rs).
Proof.
  induction 1 as [| r rs Hr _ [IH0 IH1]]; simpl.
  - split; [apply Qle_refl | discriminate].
  - destruct (p r) eqn:E; simpl; [| split; assumption].
    destruct (Hr eq_refl) as (a & Ea & Ha). rewrite Ea. simpl.
    pose proof (Qplus_lt_le_compat 0 a 0 (sum_where p rs) Ha IH0) as Hpos.
    split; [apply Qlt_le_weak; exact Hpos | intros _; exact Hpos].
Qed.

Lemma sum_where_not_positive (p : Row -> bool) (rs : list Row) :
  Forall (fun r => p r = true -> forall a, Amount r = Some a -> a <= 0) rs ->
  sum_where p rs <= 0.
Proof.
  induction 1 as [| r rs Hr _ IH]; simpl; [apply Qle_refl |].
  destruct (p r) eqn:E; [| exact IH].
  destruct (Amount r) as [a |] eqn:Ea; simpl; [| exact IH].
  exact (Qplus_le_compat a 0 (sum_where p rs) 0 (Hr eq_refl a eq_refl) IH).
Qed.

Lemma fold_sum_not_negative (sizes : list Q) :
  Forall (fun q => 0 <= q) sizes -> 0 <= List.fold_right Qplus 0 sizes.
Proof.
  induction 1 as [| x l Hx _ IH]; simpl; [apply Qle_refl |].
  exact (Qplus_le_compat 0 x 0 (List.fold_right Qplus 0 l) Hx IH).
Qed.

Lemma fold_sum_not_positive (sizes : list Q) :
  Forall (fun q => q <= 0) sizes -> List.fold_right Qplus 0 sizes <= 0.
Proof.
  induction 1 as [| x l Hx _ IH]; simpl; [apply Qle_refl |].
  exact (Qplus_le_compat x 0 (List.fold_right Qplus 0 l) 0 Hx IH).
Qed.

Lemma no_negative_size (sizes : list Q) :
  List.existsb (fun x => negb (Qle_bool 0 x)) sizes = false <->
  Forall (fun q => 0 <= q) sizes.
Proof.
  induction sizes as [| x l IH]; simpl.
  - split; [constructor | reflexivity].
  - rewrite orb_false_iff, negb_false_iff, Qle_bool_iff, IH. split.
    + intros [Hx Hl]. now constructor.
    + intros H. inversion H. now split.
Qed.

(** *** The pie *)

Lemma pie_positive (x : Q) (sizes : list Q) :
  Forall (fun q => 0 < q) (x :: sizes) -> pie (x :: sizes) = Ok tt.
Proof.
  intros H. unfold pie.
  assert (Forall (fun q => 0 <= q) (x :: sizes)) as H0.
  { eapply List.Forall_impl; [| exact H]. intros q. apply Qlt_le_weak. }
  rewrite (proj2 (no_negative_size (x :: sizes)) H0).
  inversion H as [| x' l' Hx Hl]; subst. inversion H0 as [| x' l' _ Hl0]; subst.
  pose proof (Qplus_lt_le_compat 0 x 0 _ Hx (fold_sum_not_negative sizes Hl0)) as Hpos.
  destruct (Qeq_bool (List.fold_right Qplus 0 (x :: sizes)) 0) eqn:E; [| reflexivity].
  apply Qeq_bool_iff in E. simpl in E. exfalso.
  apply (Qlt_not_eq _ _ Hpos). symmetry. exact E.
Qed.

Lemma pie_not_positive (sizes : list Q) :
  Forall (fun q => q <= 0) sizes -> pie sizes = Raise ValueError.
Proof.
  intros H. unfold pie.
  destruct (List.existsb (fun x => negb (Qle_bool 0 x)) sizes) eqn:E; [reflexivity |].
  apply no_negative_size in E.
  replace (Qeq_bool (List.fold_right Qplus 0 sizes) 0) with true; [reflexivity |].
  symmetry. apply Qeq_bool_iff. apply Qle_antisym.
  - now apply fold_sum_not_positive.
  - now apply fold_sum_not_negative.
Qed.

(** The sizes of the pie are the sums of the expenses by category. *)
Lemma expense_sizes (df : DataFrame) (q : Q) :
  In q (List.map snd (map_to_list (expense_by_category df))) ->
  exists c : string,
    List.existsb (fun r => is_Expense r && in_category c r) (values df) = true /\
    q = sum_where (fun r => is_Expense r && in_category c r) (values df).
Proof.
  intros H. apply in_map_iff in H. destruct H as ([c q'] & Hq & Hin). simpl in Hq. subst q'.
  apply list_elem_of_In, elem_of_map_to_list in Hin.
  rewrite expense_by_category_lookup in Hin. exists c.
  destruct (List.existsb _ (values df)); [| discriminate].
  injection Hin as <-. split; reflexivity.
Qed.

(** When every expense is of a positive amount the pie is drawn, or left
    out for want of an expense. *)
Lemma pie_chart_positive (df : DataFrame) :
  Forall (fun r => typed "Expense" r = true -> exists a, Amount r = Some a /\ 0 < a)
         (values df) ->
  pie_chart (expense_by_category df) = Ok tt.
Proof.
  intros H. unfold pie_chart.
  destruct (List.map snd (map_to_list (expense_by_category df))) as [| x sizes] eqn:E;
    [reflexivity |].
  apply pie_positive. rewrite <- E. apply List.Forall_forall. intros q Hq.
  destruct (expense_sizes df q Hq) as (c & Hex & ->).
  apply sum_where_positive; [| exact Hex].
  eapply List.Forall_impl; [| exact H].
  intros r Hr Hp. apply andb_true_iff in Hp. exact (Hr (proj1 Hp)).
Qed.

(** When no expense is of a positive amount and some expense has a
    category, the pie raises. *)
Lemma pie_chart_not_positive (df : DataFrame) (c : string) :
  List.existsb (fun r => typed "Expense" r && categorised c r) (values df) = true ->
  Forall (fun r => typed "Expense" r = true -> forall a, Amount r = Some a -> a <= 0)
         (values df) ->
  pie_chart (expense_by_category df) = Raise ValueError.
Proof.
  intros Hex H. unfold pie_chart.
  assert (Forall (fun q => q <= 0) (List.map snd (map_to_list (expense_by_category df))))
    as Hsizes.
  { apply List.Forall_forall. intros q Hq.
    destruct (expense_sizes df q Hq) as (c' & _ & ->).
    apply sum_where_not_positive.
    eapply List.Forall_impl; [| exact H].
    intros r Hr Hp. apply andb_true_iff in Hp. exact (Hr (proj1 Hp)). }
  destruct (List.map snd (map_to_list (expense_by_category df))) as [| x sizes] eqn:E.
  - exfalso.
    assert (expense_by_category df !! c
            = Some (sum_where (fun r => is_Expense r && in_category c r) (values df))) as Hc.
    { rewrite expense_by_category_lookup.
      now replace (List.existsb (fun r => is_Expense r && in_category c r) (values df))
        with true. }
    apply elem_of_map_to_list, list_elem_of_In in Hc.
    apply (in_map snd) in Hc. rewrite E in Hc. exact Hc.
  - now apply pie_not_positive.
Qed.

Lemma values_display_Forall (P : Row -> Prop) (df : DataFrame) :
  (forall r m, P r -> P (set_Month m r)) ->
  Forall P (values df) ->
  Forall P (values (sort_values_Date_desc (assign_Month df))).
Proof.
  intros Hm H. unfold sort_values_Date_desc. rewrite values_mk.
  eapply Permutation_Forall.
  - apply Permutation_map. symmetry. apply sort_desc_perm.
  - fold (values (assign_Month df)). rewrite values_assign_Month.
    apply Forall_map. eapply List.Forall_impl; [| exact H]. intros r Hr. now apply Hm.
Qed.

Lemma values_display_existsb (p : Row -> bool) (df : DataFrame) :
  (forall r m, p (set_Month m r) = p r) ->
  List.existsb p (values df) = true ->
  List.existsb p (values (sort_values_Date_desc (assign_Month df))) = true.
Proof.
  intros Hm H. apply existsb_exists in H. destruct H as (r & Hr & Hp).
  apply existsb_exists. exists (set_Month (month_of (Date r)) r).
  split; [| now rewrite Hm].
  unfold sort_values_Date_desc. rewrite values_mk.
  eapply Permutation_in.
  - apply Permutation_map. symmetry. apply sort_desc_perm.
  - fold (values (assign_Month df)). rewrite values_assign_Month.
    now apply (in_map (fun r => set_Month (month_of (Date r)) r)).
Qed.

Lemma charts_result (file : option CsvFile) (v : View) :
  charts file v
  = match pie_chart (v_expense_by_category v) with
    | Ok _ => Ok (file, Rendered v)
    | Raise e => Raise e
    end.
Proof. unfold charts, bind. now destruct (pie_chart (v_expense_by_category v)). Qed.

Lemma table_shown_facts (df : DataFrame) :
  index (table_shown df) = List.seq 0 (len df) /\
  Permutation (values (table_shown df)) (values (assign_Month df)) /\
  StronglySorted later_first (values (table_shown df)).
Proof.
  unfold table_shown, reset_index, sort_values_Date_desc, index. cbn [rows columns].
  rewrite !values_mk, enumerate_from_fst, enumerate_from_snd, length_map, sort_desc_length.
  split; [| split].
  - unfold assign_Month, len. cbn [rows]. now rewrite length_map.
  - unfold values. apply Permutation_map, sort_desc_perm.
  - apply StronglySorted_values, sort_desc_sorted.
Qed.

Lemma render_page (parse_datetime : string -> option Timestamp)
    (file : option CsvFile) (df : DataFrame) (now : Timestamp) (limit : Q) :
  load_data parse_datetime file = Ok df ->
  exists v : View,
    render parse_datetime file now limit NoEvent = charts file v /\
    v_expense_by_category v
      = expense_by_category (sort_values_Date_desc (assign_Month df)) /\
    v_df_display v = match rows df with
                     | [] => None
                     | _ => Some (table_shown df)
                     end.
Proof.
  intros Hload. rewrite (render_view parse_datetime now limit file df Hload).
  eexists. split; [reflexivity |].
  destruct df as [cols rs]. destruct rs; split; reflexivity.
Qed.

(** X10: a render without an event never writes the file, and a page it
    returns shows the whole ledger, latest date first: on a ledger with
    rows the table has all of them, numbered 0, 1, 2, ..., as a
    rearrangement of the loaded rows (each with its Month cell) in which no
    row stands before a row of a later date; on a ledger without rows no
    table is shown.  The render does return a page when every row whose
    Type is "Expense" has a positive amount.  It ends in the ValueError of
    the pie when some row whose Type is "Expense" has a category and no
    such row has a positive amount. *)
Theorem table_shown_is_sorted_ledger (parse_datetime : string -> option Timestamp)
    (file : option CsvFile) (df : DataFrame) (now : Timestamp) (limit : Q) :
  load_data parse_datetime file = Ok df ->
  (forall f' pg,
     render parse_datetime file now limit NoEvent = Ok (f', pg) ->
     f' = file /\
     exists v : View,
       pg = Rendered v /\
       match rows df with
       | [] => v_df_display v = None
       | _ :: _ =>
           exists shown : DataFrame,
             v_df_display v = Some shown /\
             index shown = List.seq 0 (len df) /\
             Permutation (values shown) (values (assign_Month df)) /\
             StronglySorted later_first (values shown)
       end) /\
  (Forall (fun r => typed "Expense" r = true -> exists a, Amount r = Some a /\ 0 < a)
          (values df) ->
   exists v : View, render parse_datetime file now limit NoEvent = Ok (file, Rendered v)) /\
  (forall c : string,
     List.existsb (fun r => typed "Expense" r && categorised c r) (values df) = true ->
     Forall (fun r => typed "Expense" r = true -> forall a, Amount r = Some a -> a <= 0)
            (values df) ->
     render parse_datetime file now limit NoEvent = Raise ValueError).
Proof.
  intros Hload.
  destruct (render_page parse_datetime file df now limit Hload) as (v & Hr & Hv & Hd).
  rewrite Hr, charts_result, Hv.
  split; [| split].
  - intros f' pg H.
    destruct (pie_chart _); [| discriminate]. injection H as <- <-.
    split; [reflexivity |]. exists v. split; [reflexivity |].
    destruct (rows df) as [| x l]; [exact Hd |].
    exists (table_shown df). split; [exact Hd | apply table_shown_facts].
  - intros Hpos. rewrite pie_chart_positive; [now exists v |].
    apply (values_display_Forall
             (fun r => typed "Expense" r = true -> exists a, Amount r = Some a /\ 0 < a));
      [| exact Hpos].
    intros r m H. exact H.
  - intros c Hex Hneg. rewrite (pie_chart_not_positive _ c); [reflexivity | |].
    + apply (values_display_existsb (fun r => typed "Expense" r && categorised c r));
        [| exact Hex].
      intros r m. reflexivity.
    + apply (values_display_Forall
               (fun r => typed "Expense" r = true -> forall a, Amount r = Some a -> a <= 0));
        [| exact Hneg].
      intros r m H. exact H.
Qed.

(** The two example lines are shown Salary first; a refund booked as a
    negative expense stops the page at the pie. *)
Lemma table_shown_is_sorted_ledger_witness :
  (exists v : View,
     render iso_datetime (Some food_salary_file) mid_march 5000 NoEvent
       = Ok (Some food_salary_file, Rendered v) /\
     option_map values (v_df_display v) = Some [salary_row; food_row]) /\
  render iso_datetime (Some refund_file) mid_march 5000 NoEvent = Raise ValueError.
Proof.
  split.
  - destruct (table_shown_is_sorted_ledger iso_datetime (Some food_salary_file)
                {| columns := base_columns;
                   rows := load_spec iso_datetime false 0 (lines food_salary_file) |}
                mid_march 5000 eq_refl) as (_ & Hpage & _).
    destruct Hpage as (v & Hr).
    + apply List.Forall_cons; [intros _; exists 30; split; reflexivity |].
      apply List.Forall_cons; [intros H; discriminate H | apply List.Forall_nil].
    + exists v. split; [exact Hr |].
      assert (Ok (Some food_salary_file, Rendered v)
              = render iso_datetime (Some food_salary_file) mid_march 5000 NoEvent) as E
        by (symmetry; exact Hr).
      vm_compute in E. injection E as ->. vm_compute. reflexivity.
  - destruct (table_shown_is_sorted_ledger iso_datetime (Some refund_file)
                {| columns := base_columns;
                   rows := load_spec iso_datetime false 0 (lines refund_file) |}
                mid_march 5000 eq_refl) as (_ & _ & Hraise).
    apply (Hraise "Food"); [reflexivity |].
    apply List.Forall_cons; [| apply List.Forall_nil].
    intros _ a Ha. injection Ha as <-. discriminate.
Defined.

(** ** Today and this month *)

Lemma on_day_same_day (now : Timestamp) (r : Row) :
  on_day (normalize now) r = same_day now r.
Proof.
  unfold on_day, same_day. destruct (Date r) as [| s | t]; try reflexivity.
  unfold ts_eqb, normalize. simpl. now rewrite andb_true_r.
Qed.

Lemma length_select (p : Row -> bool) (df : DataFrame) :
  len (select p df) = List.length (List.filter p (values df)).
Proof.
  unfold len, select, values. simpl.
  induction (rows df) as [| [i r] rs IH]; simpl; [reflexivity |].
  destruct (p r); simpl; now rewrite IH.
Qed.

Lemma values_df_today (now : Timestamp) (df : DataFrame) :
  values (df_today (normalize now) df) = List.filter (same_day now) (values df).
Proof.
  unfold df_today. rewrite values_select. apply List.filter_ext.
  intros r. apply on_day_same_day.
Qed.

Lemma amount_total_filter_and (p q : Row -> bool) (rs : list Row) :
  amount_total q (List.filter p rs) = amount_total (fun r => p r && q r) rs.
Proof.
  induction rs as [| r rs IH]; simpl; [reflexivity |].
  destruct (p r); simpl; now rewrite IH.
Qed.

(** X11: today's rows are the rows dated on the calendar day of the clock,
    the time of day of the clock and of the rows playing no part; the count
    shown is their number, whatever their type, and today's income and
    expense are the sums of the amounts of those of them whose Type is
    "Income" and "Expense". *)
Theorem today_figures (df : DataFrame) (now : Timestamp) :
  values (df_today (normalize now) df) = List.filter (same_day now) (values df) /\
  len (df_today (normalize now) df) = List.length (List.filter (same_day now) (values df)) /\
  total_income (df_today (normalize now) df)
    = amount_total (fun r => same_day now r && typed "Income" r) (values df) /\
  total_expense (df_today (normalize now) df)
    = amount_total (fun r => same_day now r && typed "Expense" r) (values df) /\
  (forall now' : Timestamp,
     year now' = year now -> month now' = month now -> day now' = day now ->
     df_today (normalize now') df = df_today (normalize now) df).
Proof.
  split; [apply values_df_today |]. split.
  - unfold df_today. rewrite length_select. f_equal.
    apply List.filter_ext. intros r. apply on_day_same_day.
  - assert (forall p l, sum_where p l = amount_total p l) as Hsum by sum_row_by_row.
    split; [| split].
    + unfold total_income. rewrite Amount_sum_select, Hsum, values_df_today.
      rewrite amount_total_filter_and. apply amount_total_ext.
      intros r. reflexivity.
    + unfold total_expense. rewrite Amount_sum_select, Hsum, values_df_today.
      rewrite amount_total_filter_and. apply amount_total_ext.
      intros r. reflexivity.
    + intros now' Hy Hm Hd. unfold normalize. now rewrite Hy, Hm, Hd.
Qed.

(** On the morning of the first of March the three example lines have
    one row of today, the Food expense of 30. *)
Lemma today_figures_witness :
  List.map Category (values (df_today (normalize first_of_march_morning)
                                      food_salary_rent_ledger)) = [Str "Food"] /\
  total_expense (df_today (normalize first_of_march_morning) food_salary_rent_ledger) = 30 /\
  amount_total (fun r => same_day first_of_march_morning r && typed "Expense" r)
               (values food_salary_rent_ledger) = 30 /\
  df_today (normalize day_0301) food_salary_rent_ledger
  = df_today (normalize first_of_march_morning) food_salary_rent_ledger.
Proof.
  assert (total_expense (df_today (normalize first_of_march_morning) food_salary_rent_ledger)
          = 30) as Hcode by (vm_compute; reflexivity).
  destruct (today_figures food_salary_rent_ledger first_of_march_morning)
    as (Hv & _ & _ & He & Hsame).
  split; [rewrite Hv; reflexivity |]. split; [exact Hcode |].
  split; [rewrite <- He; exact Hcode |].
  apply Hsame; reflexivity.
Defined.

Lemma strftime_Ym_inj (a b : Timestamp) :
  (year a < 10000)%N -> (month a < 100)%N -> (year b < 10000)%N -> (month b < 100)%N ->
  strftime_Ym a = strftime_Ym b -> year a = year b /\ month a = month b.
Proof.
  intros Hya Hma Hyb Hmb H.
  apply (f_equal list_ascii_of_string) in H. unfold strftime_Ym in H.
  rewrite !list_ascii_of_string_of_list_ascii in H.
  unfold pad4, pad2 in H. simpl in H.
  injection H as H1 H2 H3 H4 H5 H6.
  pose proof (num4_pad4 (year a) Hya) as Ea. pose proof (num4_pad4 (year b) Hyb) as Eb.
  pose proof (num2_pad2 (month a) Hma) as Fa. pose proof (num2_pad2 (month b) Hmb) as Fb.
  rewrite H1, H2, H3, H4 in Ea. rewrite H5, H6 in Fa.
  split; congruence.
Qed.

Lemma month_cell_same_month (now t : Timestamp) :
  ts_valid now = true -> ts_valid t = true ->
  cell_is (strftime_Ym now) (Str (strftime_Ym t))
  = ((year t =? year now)%N && (month t =? month now)%N).
Proof.
  intros Hn Ht.
  destruct (ts_valid_bounds now Hn) as (Hyn & Hmn & _).
  destruct (ts_valid_bounds t Ht) as (Hyt & Hmt & _).
  cbn [cell_is]. destruct (String.eqb_spec (strftime_Ym t) (strftime_Ym now)) as [E | E].
  - apply strftime_Ym_inj in E; try assumption. destruct E as [Ey Em].
    now rewrite Ey, Em, !N.eqb_refl.
  - symmetry. apply andb_false_iff.
    destruct (N.eqb_spec (year t) (year now)) as [Ey | Ey]; [| now left].
    destruct (N.eqb_spec (month t) (month now)) as [Em | Em]; [| now right].
    exfalso. apply E. unfold strftime_Ym. now rewrite Ey, Em.
Qed.

Lemma filter_map_swap {A B : Type} (f : A -> B) (p : B -> bool) (l : list A) :
  List.filter p (List.map f l) = List.map f (List.filter (fun x => p (f x)) l).
Proof.
  induction l as [| x l IH]; simpl; [reflexivity |].
  destruct (p (f x)); simpl; now rewrite IH.
Qed.

Lemma filter_ext_Forall {A : Type} (p q : A -> bool) (l : list A) :
  Forall (fun x => p x = q x) l -> List.filter p l = List.filter q l.
Proof.
  induction 1 as [| x l Hx _ IH]; simpl; [reflexivity |].
  now rewrite Hx, IH.
Qed.

(** X12: the rows whose amounts are held against the budget are the rows
    whose Type is "Expense" and whose date is in the calendar month of the
    clock, same year and same month, in the order of the ledger.  The code
    compares the texts "YYYY-MM"; for dates that a Timestamp can hold this
    is the comparison of year and month. *)
Theorem monthly_expense_is_calendar_month (df : DataFrame) (now : Timestamp) :
  ts_valid now = true ->
  Forall (fun r => valid_date r = true) (values df) ->
  List.map ledger_key
    (values (select (fun r => is_Expense r && cell_is (strftime_Ym now) (Month r))
                    (assign_Month df)))
  = List.map ledger_key
      (List.filter (fun r => typed "Expense" r && same_month now r) (values df)).
Proof.
  intros Hnow Hvalid.
  rewrite values_select, values_assign_Month, filter_map_swap, map_map.
  rewrite (filter_ext_Forall _ (fun r => typed "Expense" r && same_month now r));
    [reflexivity |].
  eapply List.Forall_impl; [| exact Hvalid].
  intros r Hr. unfold valid_date in Hr. unfold same_month.
  destruct (Date r) as [| s | t] eqn:Hd; try discriminate.
  cbn [set_Month Month Type_ month_of]. unfold is_Expense, typed. cbn [Type_].
  f_equal. now apply month_cell_same_month.
Qed.

(** In the middle of March the expenses of the three example lines held
    against the budget are Food and Rent. *)
Lemma monthly_expense_is_calendar_month_witness :
  List.map ledger_key
    (values (select (fun r => is_Expense r && cell_is (strftime_Ym mid_march) (Month r))
                    (assign_Month food_salary_rent_ledger)))
  = [(Time day_0301, Str "Expense", Some 30, Str "Food");
     (Time day_0303, Str "Expense", Some 200, Str "Rent")] /\
  List.map ledger_key
    (List.filter (fun r => typed "Expense" r && same_month mid_march r)
                 (values food_salary_rent_ledger))
  = [(Time day_0301, Str "Expense", Some 30, Str "Food");
     (Time day_0303, Str "Expense", Some 200, Str "Rent")].
Proof.
  assert (List.map ledger_key
            (values (select (fun r => is_Expense r && cell_is (strftime_Ym mid_march) (Month r))
                            (assign_Month food_salary_rent_ledger)))
          = [(Time day_0301, Str "Expense", Some 30, Str "Food");
             (Time day_0303, Str "Expense", Some 200, Str "Rent")]) as Hcode
    by (vm_compute; reflexivity).
  split; [exact Hcode |].
  rewrite <- (monthly_expense_is_calendar_month food_salary_rent_ledger mid_march).
  - exact Hcode.
  - reflexivity.
  - repeat constructor.
Defined.

(** ** The monthly series *)

Lemma Month_Type_key_spec (m t : string) (r : Row) :
  bool_decide (Month_Type_key r = Some (m, t)) = of_month m r && typed t r.
Proof.
  unfold Month_Type_key, of_month, typed.
  destruct (Month r) as [| x]; [now apply bool_decide_eq_false_2 |].
  destruct (Type_ r) as [| y].
  - rewrite andb_false_r. now apply bool_decide_eq_false_2.
  - destruct (String.eqb_spec x m) as [-> | Hx], (String.eqb_spec y t) as [-> | Hy]; simpl.
    + now apply bool_decide_eq_true_2.
    + apply bool_decide_eq_false_2. congruence.
    + apply bool_decide_eq_false_2. congruence.
    + apply bool_decide_eq_false_2. congruence.
Qed.

Lemma amount_total_none (p : Row -> bool) (rs : list Row) :
  List.existsb p rs = false -> amount_total p rs = 0.
Proof.
  induction rs as [| r rs IH]; simpl; [reflexivity |].
  destruct (p r); simpl; [discriminate | exact IH].
Qed.

Lemma monthly_groups_lookup (df : DataFrame) (m t : string) :
  monthly_groups df !! (m, t)
  = if List.existsb (fun r => of_month m r && typed t r) (values df)
    then Some (sum_where (fun r => of_month m r && typed t r) (values df))
    else None.
Proof.
  unfold monthly_groups. rewrite groupby_sum_lookup.
  rewrite (existsb_ext' _ (fun r => of_month m r && typed t r))
    by (apply Month_Type_key_spec).
  now rewrite (sum_where_ext _ (fun r => of_month m r && typed t r))
    by (apply Month_Type_key_spec).
Qed.

(** The keys of the series are the (month, type) pairs of the rows. *)
Lemma monthly_groups_keys (df : DataFrame) (k : string * string) :
  In k (List.map fst (map_to_list (monthly_groups df))) <->
  exists r, In r (values df) /\ Month r = Str (fst k) /\ Type_ r = Str (snd k).
Proof.
  destruct k as [m t]. simpl. split.
  - intros H. apply in_map_iff in H. destruct H as ([k' q] & Hk & Hin). simpl in Hk. subst k'.
    apply list_elem_of_In, elem_of_map_to_list in Hin.
    rewrite monthly_groups_lookup in Hin.
    destruct (List.existsb _ (values df)) eqn:E; [| discriminate].
    apply existsb_exists in E. destruct E as (r & Hr & Hp).
    apply andb_true_iff in Hp. destruct Hp as [Hm Ht].
    exists r. split; [exact Hr |]. unfold of_month, typed in *.
    destruct (Month r) as [| x]; [discriminate |]. destruct (Type_ r) as [| y]; [discriminate |].
    apply String.eqb_eq in Hm, Ht. now subst.
  - intros (r & Hr & Hm & Ht).
    assert (List.existsb (fun r => of_month m r && typed t r) (values df) = true) as E.
    { apply existsb_exists. exists r. split; [exact Hr |].
      unfold of_month, typed. now rewrite Hm, Ht, !String.eqb_refl. }
    apply in_map_iff.
    exists ((m, t), sum_where (fun r => of_month m r && typed t r) (values df)).
    split; [reflexivity |].
    apply list_elem_of_In, elem_of_map_to_list. now rewrite monthly_groups_lookup, E.
Qed.

Lemma month_present (df : DataFrame) (m : string) :
  List.existsb (fun k : string * string => String.eqb (fst k) m)
               (List.map fst (map_to_list (monthly_groups df)))
  = List.existsb (fun r => of_month m r && grouped r) (values df).
Proof.
  apply eq_true_iff_eq. rewrite !existsb_exists. split.
  - intros ([m' t] & Hin & Hm). simpl in Hm. apply String.eqb_eq in Hm. subst m'.
    apply monthly_groups_keys in Hin. destruct Hin as (r & Hr & Hmr & Htr). simpl in *.
    exists r. split; [exact Hr |]. unfold of_month, grouped.
    now rewrite Hmr, Htr, String.eqb_refl.
  - intros (r & Hr & Hp). apply andb_true_iff in Hp. destruct Hp as [Hm Hg].
    unfold of_month, grouped in *.
    destruct (Month r) as [| x] eqn:Hx; [discriminate |].
    destruct (Type_ r) as [| y] eqn:Hy; [discriminate |].
    apply String.eqb_eq in Hm. subst x.
    exists (m, y). split; [| simpl; apply String.eqb_refl].
    apply monthly_groups_keys. exists r. now split.
Qed.

Lemma type_present (df : DataFrame) (t : string) :
  List.existsb (fun k : string * string => String.eqb (snd k) t)
               (List.map fst (map_to_list (monthly_groups df)))
  = List.existsb (fun r => grouped r && typed t r) (values df).
Proof.
  apply eq_true_iff_eq. rewrite !existsb_exists. split.
  - intros ([m t'] & Hin & Ht). simpl in Ht. apply String.eqb_eq in Ht. subst t'.
    apply monthly_groups_keys in Hin. destruct Hin as (r & Hr & Hmr & Htr). simpl in *.
    exists r. split; [exact Hr |]. unfold typed, grouped.
    now rewrite Hmr, Htr, String.eqb_refl.
  - intros (r & Hr & Hp). apply andb_true_iff in Hp. destruct Hp as [Hg Ht].
    unfold typed, grouped in *.
    destruct (Month r) as [| x] eqn:Hx; [discriminate |].
    destruct (Type_ r) as [| y] eqn:Hy; [discriminate |].
    apply String.eqb_eq in Ht. subst y.
    exists (x, t). split; [| simpl; apply String.eqb_refl].
    apply monthly_groups_keys. exists r. now split.
Qed.

(** X13: the monthly series has an entry for a month and a type exactly
    when some row has that Month and that Type, and the entry is the sum of
    the amounts of those rows.  The table of the chart has a cell for a
    month and a type when the month occurs in some group and the type
    occurs in some group; the cell holds the entry, or 0 when that month
    has no row of that type. *)
Theorem monthly_series_by_month_and_type (df : DataFrame) (m t : string) :
  monthly_groups df !! (m, t)
  = (if List.existsb (fun r => of_month m r && typed t r) (values df)
     then Some (amount_total (fun r => of_month m r && typed t r) (values df))
     else None) /\
  monthly_summary df m t
  = (if List.existsb (fun r => of_month m r && grouped r) (values df)
        && List.existsb (fun r => grouped r && typed t r) (values df)
     then Some (amount_total (fun r => of_month m r && typed t r) (values df))
     else None).
Proof.
  assert (forall p l, sum_where p l = amount_total p l) as Hsum by sum_row_by_row.
  split; [rewrite monthly_groups_lookup, Hsum; reflexivity |].
  unfold monthly_summary. rewrite month_present, type_present, monthly_groups_lookup, Hsum.
  destruct (List.existsb (fun r => of_month m r && grouped r) (values df)
            && List.existsb (fun r => grouped r && typed t r) (values df));
    [| reflexivity].
  destruct (List.existsb (fun r => of_month m r && typed t r) (values df)) eqn:E;
    [reflexivity |].
  simpl. now rewrite amount_total_none.
Qed.

(** The series of the three example lines: one month, two types. *)
Lemma monthly_series_by_month_and_type_witness :
  monthly_groups (assign_Month food_salary_rent_ledger) !! ("2024-03", "Expense") = Some 230 /\
  (if List.existsb (fun r => of_month "2024-03" r && typed "Expense" r)
                   (values (assign_Month food_salary_rent_ledger))
   then Some (amount_total (fun r => of_month "2024-03" r && typed "Expense" r)
                           (values (assign_Month food_salary_rent_ledger)))
   else None) = Some 230 /\
  monthly_summary (assign_Month food_salary_rent_ledger) "2024-03" "Income" = Some 500 /\
  monthly_summary (assign_Month food_salary_rent_ledger) "2024-04" "Income" = None.
Proof.
  assert (monthly_groups (assign_Month food_salary_rent_ledger) !! ("2024-03", "Expense")
          = Some 230) as Hcode by (vm_compute; reflexivity).
  split; [exact Hcode |].
  split.
  { rewrite <- (proj1 (monthly_series_by_month_and_type
                         (assign_Month food_salary_rent_ledger) "2024-03" "Expense")).
    exact Hcode. }
  split.
  - rewrite (proj2 (monthly_series_by_month_and_type _ "2024-03" "Income")). reflexivity.
  - rewrite (proj2 (monthly_series_by_month_and_type _ "2024-04" "Income")). reflexivity.
Defined.

(** ** A ledger without rows *)

(** X14: with no file, or a file none of whose lines has a date, the page
    renders without error: every total, today's figures and the month's
    expense are 0, no transaction is counted, no table is shown, both
    charts are empty, the file is left as it is, and the budget is within
    any limit that is not negative. *)
Theorem empty_ledger_renders_zeros (parse_datetime : string -> option Timestamp)
    (file : option CsvFile) (df : DataFrame) (now : Timestamp) (limit : Q) :
  load_data parse_datetime file = Ok df ->
  rows df = [] ->
  exists v : View,
    render parse_datetime file now limit NoEvent = Ok (file, Rendered v) /\
    (v_total_income v, v_total_expense v, v_balance v) = (0, 0, 0) /\
    (v_today_income v, v_today_expense v, v_today_balance v) = (0, 0, 0) /\
    v_new_transactions_today v = 0%nat /\
    v_monthly_expense v = 0 /\
    v_df_display v = None /\
    v_monthly_groups v = ∅ /\
    v_expense_by_category v = ∅ /\
    (0 <= limit -> v_budget v = WithinBudget).
Proof.
  intros Hload Hrows. rewrite (render_view parse_datetime now limit file df Hload).
  destruct df as [cols rs]. simpl in Hrows. subst rs.
  eexists. split; [reflexivity |]. cbn [rows].
  repeat (split; [reflexivity |]).
  split; [unfold view_of, v_monthly_groups; rewrite empty_assign_Month; reflexivity |].
  split; [reflexivity |].
  intros Hl. cbn. unfold budget_status.
  now replace (Qle_bool 0 limit) with true by (symmetry; now apply Qle_bool_iff).
Qed.

Lemma empty_ledger_renders_zeros_witness :
  exists v : View,
    render iso_datetime None mid_march 5000 NoEvent = Ok (None, Rendered v) /\
    v_df_display v = None /\ v_budget v = WithinBudget.
Proof.
  destruct (empty_ledger_renders_zeros iso_datetime None
              {| columns := base_columns; rows := [] |} mid_march 5000 eq_refl eq_refl)
    as (v & Hr & _ & _ & _ & _ & Hd & _ & _ & Hb).
  exists v. split; [exact Hr |]. split; [exact Hd |]. apply Hb. discriminate.
Defined.

(** ** After a delete *)

Lemma StronglySorted_remove {A : Type} (R : A -> A -> Prop) (before after : list A) (x : A) :
  StronglySorted R (before ++ x :: after) -> StronglySorted R (before ++ after).
Proof.
  induction before as [| y before IH]; simpl; intros H.
  - now inversion H.
  - inversion H as [| y' l' Hs Hy]; subst. constructor; [now apply IH |].
    rewrite List.Forall_forall in *. intros z Hz. apply Hy.
    apply in_app_or in Hz. apply in_or_app. simpl. tauto.
Qed.

Lemma StronglySorted_same_dates (l1 l2 : list (nat * Row)) :
  List.map (fun ir => Date (snd ir)) l1 = List.map (fun ir => Date (snd ir)) l2 ->
  StronglySorted strictly_later_first l1 -> StronglySorted strictly_later_first l2.
Proof.
  revert l2. induction l1 as [| x l1 IH]; intros l2 H Hs.
  - destruct l2; [constructor | discriminate].
  - destruct l2 as [| y l2]; [discriminate |]. simpl in H. injection H as Hxy Hrest.
    inversion Hs as [| x' l' Hs' Hx]; subst. constructor; [now apply IH |].
    assert (forall l l' : list (nat * Row),
              List.map (fun ir => Date (snd ir)) l = List.map (fun ir => Date (snd ir)) l' ->
              Forall (strictly_later_first x) l -> Forall (strictly_later_first y) l') as Hgen.
    { induction l as [| a l IHl]; intros l' Hm Hf.
      - destruct l'; [constructor | discriminate].
      - destruct l' as [| b l']; [discriminate |]. simpl in Hm. injection Hm as Hab Hm.
        inversion Hf as [| a' l0 Ha Hf']; subst. constructor; [| now apply IHl].
        unfold strictly_later_first, date_rank in *. now rewrite <- Hxy, <- Hab. }
    now apply (Hgen l1 l2).
Qed.

Lemma ts_ord_inj (a b : Timestamp) :
  ts_valid a = true -> ts_valid b = true -> ts_ord a = ts_ord b -> a = b.
Proof.
  intros Ha Hb E.
  pose proof (ts_ord_chronological a b Ha Hb) as Hab.
  pose proof (ts_ord_chronological b a Hb Ha) as Hba.
  assert (year a = year b /\ month a = month b /\ day a = day b /\ secs a = secs b)
    as (Hy & Hm & Hd & Hs) by lia.
  destruct a, b. simpl in *. now subst.
Qed.

(** Rows of distinct dates have distinct ranks. *)
Lemma date_rank_inj (r1 r2 : Row) :
  valid_date r1 = true -> valid_date r2 = true ->
  date_rank r1 = date_rank r2 -> Date r1 = Date r2.
Proof.
  unfold valid_date, date_rank.
  destruct (Date r1) as [| s1 | t1], (Date r2) as [| s2 | t2]; try discriminate.
  intros H1 H2 E. f_equal. apply ts_ord_inj; [assumption | assumption | lia].
Qed.

Lemma NoDup_date_rank (rs : list Row) :
  Forall (fun r => valid_date r = true) rs ->
  List.NoDup (List.map Date rs) ->
  List.NoDup (List.map date_rank rs).
Proof.
  induction 1 as [| r rs Hr Hrs IH]; simpl; intros Hn; [constructor |].
  inversion Hn as [| d l Hnot Hn']; subst. constructor; [| now apply IH].
  intros Hin. apply Hnot. apply in_map_iff in Hin. destruct Hin as (r' & E & Hr').
  apply in_map_iff. exists r'. split; [| exact Hr'].
  apply date_rank_inj; [| exact Hr | exact E].
  rewrite List.Forall_forall in Hrs. now apply Hrs.
Qed.

Lemma sorted_distinct_strict (l : list (nat * Row)) :
  StronglySorted date_desc l ->
  List.NoDup (List.map (fun ir => date_rank (snd ir)) l) ->
  StronglySorted strictly_later_first l.
Proof.
  induction 1 as [| x l Hs IH Hx]; intros Hn; [constructor |].
  simpl in Hn. inversion Hn as [| d l' Hnot Hn']; subst.
  constructor; [now apply IH |].
  rewrite List.Forall_forall in *. intros y Hy.
  specialize (Hx y Hy). unfold date_desc in Hx. unfold strictly_later_first.
  assert (date_rank (snd y) <> date_rank (snd x)) as Hne.
  { intros E. apply Hnot. rewrite <- E.
    apply (in_map (fun ir => date_rank (snd ir))). exact Hy. }
  lia.
Qed.

(** The display order of a ledger of distinct dates is strict. *)
Lemma sort_desc_strict (df : DataFrame) :
  Forall (fun r => valid_date r = true) (values df) ->
  List.NoDup (List.map Date (values df)) ->
  StronglySorted strictly_later_first (sort_desc (rows (assign_Month df))).
Proof.
  intros Hv Hn. apply sorted_distinct_strict; [apply sort_desc_sorted |].
  eapply Permutation_NoDup.
  - apply Permutation_map. symmetry. apply sort_desc_perm.
  - pose proof (NoDup_date_rank (values df) Hv Hn) as H.
    replace (List.map (fun ir => date_rank (snd ir)) (rows (assign_Month df)))
      with (List.map date_rank (values df)); [exact H |].
    unfold assign_Month, values. cbn [rows]. rewrite !map_map.
    apply map_ext. intros [k r]. reflexivity.
Qed.

Lemma load_spec_written_dates (parse_datetime : string -> option Timestamp)
    (dates_only wm wm' : bool) (i : nat) (rs : list Row) :
  (forall t : Timestamp,
     ts_valid t = true ->
     parse_datetime (format_timestamp false t) = Some t /\
     (secs t = 0%N -> parse_datetime (format_timestamp true t) = Some t)) ->
  Forall (fun r => valid_date r = true) rs ->
  (dates_only = true -> Forall (fun r => at_midnight r = true) rs) ->
  List.map fst (load_spec parse_datetime wm' i (List.map (write_line dates_only wm) rs))
    = List.seq i (List.length rs) /\
  List.map (fun ir => Date (snd ir))
           (load_spec parse_datetime wm' i (List.map (write_line dates_only wm) rs))
    = List.map Date rs.
Proof.
  intros Hparse. revert i; induction rs as [| r rs IH]; intros i Hall Hmid; simpl;
    [split; reflexivity |].
  inversion Hall as [| r' rs' Hv Hall']; subst.
  unfold valid_date in Hv. destruct (Date r) as [| s | t] eqn:Hd; try discriminate.
  rewrite (parsed_date_write_line parse_datetime Hparse dates_only wm r t Hd Hv).
  - simpl. destruct (IH (S i) Hall') as [IH1 IH2].
    { intros Hb. specialize (Hmid Hb). now inversion Hmid. }
    now rewrite IH1, IH2.
  - intros Hb. specialize (Hmid Hb). now inversion Hmid.
Qed.

Lemma valid_dates_display (df : DataFrame) (before after : list (nat * Row)) (x : nat * Row) :
  Forall (fun r => valid_date r = true) (values df) ->
  sort_desc (rows (assign_Month df)) = (before ++ x :: after)%list ->
  Forall (fun r => valid_date r = true) (List.map snd (before ++ after)).
Proof.
  intros Hv Hsplit.
  assert (Forall (fun r => valid_date r = true) (List.map snd (before ++ x :: after))) as H.
  { rewrite <- Hsplit. eapply Permutation_Forall.
    - apply Permutation_map. symmetry. apply sort_desc_perm.
    - fold (values (assign_Month df)). rewrite values_assign_Month.
      apply Forall_map. eapply List.Forall_impl; [| exact Hv]. intros r Hr. exact Hr. }
  rewrite map_app in *. simpl in H. apply Forall_app in H. destruct H as [H1 H2].
  apply Forall_app. split; [exact H1 | now inversion H2].
Qed.

(** X16: a delete leaves the file in display order, so on the next render
    the position typed is the row shown.  For a ledger of distinct dates
    that a Timestamp can hold and a parser that reads the formats written:
    after a delete of an existing label, the file loads to one row fewer,
    labelled 0, 1, 2, ... with every row dated before the rows above it, the
    table shown is the table loaded, and a further delete at any position
    in range takes out exactly the row shown at that position.  With equal
    dates the order in which the sort leaves them is not determined, and
    the statement is not made. *)
Theorem after_delete_position_is_shown_row (parse_datetime : string -> option Timestamp)
    (file : option CsvFile) (df : DataFrame) (now : Timestamp) (limit : Q) (i : nat) :
  (forall t : Timestamp,
     ts_valid t = true ->
     parse_datetime (format_timestamp false t) = Some t /\
     (secs t = 0%N -> parse_datetime (format_timestamp true t) = Some t)) ->
  load_data parse_datetime file = Ok df ->
  Forall (fun r => valid_date r = true) (values df) ->
  List.NoDup (List.map Date (values df)) ->
  (i < len df)%nat ->
  In i (index df) ->
  exists (f' : CsvFile) (df2 : DataFrame),
    render parse_datetime file now limit (DeleteSubmitted i) = Ok (Some f', Rerun) /\
    load_data parse_datetime (Some f') = Ok df2 /\
    S (len df2) = len df /\
    index df2 = List.seq 0 (len df2) /\
    StronglySorted strictly_later_first (rows df2) /\
    values (table_shown df2) = values (assign_Month df2) /\
    forall (now' : Timestamp) (limit' : Q) (j : nat),
      (j < len df2)%nat ->
      exists df3 : DataFrame,
        render parse_datetime (Some f') now' limit' (DeleteSubmitted j)
          = Ok (save_data df3, Rerun) /\
        values df3 = (firstn j (values (table_shown df2))
                      ++ skipn (S j) (values (table_shown df2)))%list.
Proof.
  intros Hparse Hload Hvalid Hnodup Hi Hin.
  destruct (load_data_inv parse_datetime file df Hload) as [Hdate _].
  destruct (render_delete_splits parse_datetime file df now limit i Hload Hi Hin)
    as (before & after & r & Hsplit & Hr).
  pose proof (valid_dates_display df before after (i, r) Hvalid Hsplit) as Hv'.
  assert (has_column "Date" (columns (assign_Month df)) = true) as Hdate'.
  { destruct (columns_assign_Month df) as (extra & ->). now apply has_column_app. }
  set (saved := {| columns := columns (assign_Month df); rows := before ++ after |}) in *.
  destruct (load_spec_written_dates parse_datetime
              (forallb at_midnight (values saved))
              (has_column "Month" (columns saved)) (has_column "Month" (columns saved))
              0 (values saved) Hparse Hv') as [Hfst Hdates].
  { intros Hb. apply List.Forall_forall. now apply List.forallb_forall. }
  assert (len saved = List.length (values saved)) as Hlen
    by (unfold len, values; now rewrite length_map).
  assert (S (List.length (values saved)) = len df) as Hcount.
  { unfold values, saved. cbn [rows]. rewrite length_map.
    assert (List.length (sort_desc (rows (assign_Month df))) = len df) as E
      by (rewrite sort_desc_length; unfold assign_Month, len; cbn [rows]; apply length_map).
    rewrite Hsplit in E. rewrite !length_app in *. simpl in E. lia. }
  eexists. eexists. split; [exact Hr |].
  split; [unfold save_data; apply load_data_Some; exact Hdate' |].
  match goal with
  | |- S (len ?d) = _ /\ _ => set (df2 := d)
  end.
  assert (index df2 = List.seq 0 (List.length (values saved))) as Hidx by exact Hfst.
  assert (len df2 = List.length (values saved)) as Hlen2.
  { unfold len. rewrite <- (length_map fst). fold (index df2). now rewrite Hidx, length_seq. }
  assert (StronglySorted strictly_later_first (rows df2)) as Hsorted2.
  { apply (StronglySorted_same_dates (before ++ after)).
    - unfold df2. cbn [rows]. unfold to_csv. cbn [header lines].
      rewrite Hdates. unfold values, saved. cbn [rows]. now rewrite map_map.
    - apply StronglySorted_remove with (x := (i, r)). rewrite <- Hsplit.
      now apply sort_desc_strict. }
  split; [rewrite Hlen2; exact Hcount |].
  split; [rewrite Hlen2; exact Hidx |].
  split; [exact Hsorted2 |].
  split; [exact (sorted_table_shown df2 Hsorted2) |].
  intros now' limit' j Hj.
  assert (load_data parse_datetime (Some (to_csv saved)) = Ok df2) as Hload2
    by (unfold df2; apply load_data_Some; exact Hdate').
  assert (index df2 = List.seq 0 (len df2)) as Hidx2 by (rewrite Hlen2; exact Hidx).
  exact (sorted_table_delete parse_datetime (Some (to_csv saved)) df2 now' limit' j
           Hload2 Hsorted2 Hidx2 Hj).
Qed.

Lemma after_delete_position_is_shown_row_witness :
  exists (f' : CsvFile) (df2 : DataFrame),
    render iso_datetime (Some food_salary_rent_file) mid_march 5000 (DeleteSubmitted 1)
      = Ok (Some f', Rerun) /\
    load_data iso_datetime (Some f') = Ok df2 /\
    index df2 = List.seq 0 (len df2) /\
    StronglySorted strictly_later_first (rows df2) /\
    values (table_shown df2) = values (assign_Month df2).
Proof.
  destruct (after_delete_position_is_shown_row iso_datetime (Some food_salary_rent_file)
              {| columns := base_columns;
                 rows := load_spec iso_datetime false 0 (lines food_salary_rent_file) |}
              mid_march 5000 1) as (f' & df2 & Hr & Hl & _ & Hi & Hs & Ht & _).
  - exact iso_datetime_format.
  - reflexivity.
  - repeat constructor.
  - lazy - [In]. repeat (constructor; [simpl; intuition discriminate |]). constructor.
  - vm_compute. lia.
  - vm_compute. tauto.
  - exists f', df2. repeat split; assumption.
Defined.

(** ** Lines without a date do not survive a mutation *)

(** X17: every mutation rewrites the whole file from the loaded table, so
    the lines whose date did not parse are gone from the file afterwards:
    with [k] lines of the file having a date, the file holds [k + 1] lines
    after an add, [k] after an update and [k - 1] after a delete of an
    existing label. *)
Theorem mutation_drops_undated_lines (parse_datetime : string -> option Timestamp)
    (f : CsvFile) (df : DataFrame) (now : Timestamp) (limit : Q) :
  load_data parse_datetime (Some f) = Ok df ->
  (forall a ty c d f' pg,
     render parse_datetime (Some f) now limit (AddSubmitted a ty c d) = Ok (Some f', pg) ->
     List.length (lines f')
     = S (List.length (List.filter (has_date parse_datetime) (lines f)))) /\
  (forall i, (i < len df)%nat -> In i (index df) ->
     (forall a ty c d,
        exists f' : CsvFile,
          render parse_datetime (Some f) now limit (UpdateSubmitted i a ty c d)
            = Ok (Some f', Rerun) /\
          List.length (lines f')
          = List.length (List.filter (has_date parse_datetime) (lines f))) /\
     (exists f' : CsvFile,
        render parse_datetime (Some f) now limit (DeleteSubmitted i) = Ok (Some f', Rerun) /\
        S (List.length (lines f'))
        = List.length (List.filter (has_date parse_datetime) (lines f)))).
Proof.
  intros Hload. pose proof (len_loaded parse_datetime f df Hload) as Hlen.
  assert (List.length (sort_desc (rows (assign_Month df))) = len df) as Hsort
    by (rewrite sort_desc_length; unfold assign_Month, len; cbn [rows]; apply length_map).
  split.
  - intros a ty c d f' pg Hr.
    rewrite (render_add parse_datetime now limit (Some f) df a ty c d Hload) in Hr.
    destruct (Qle_bool 0 a); [| discriminate].
    destruct (List.length (columns df) =? 4)%nat; [| discriminate].
    injection Hr as <- _. unfold to_csv. cbn [lines].
    rewrite length_map, values_mk, enumerate_from_snd, length_app. simpl.
    unfold values. rewrite length_map. fold (len df). lia.
  - intros i Hi Hin. split.
    + intros a ty c d.
      destruct (render_update_splits parse_datetime (Some f) df now limit i a ty c d
                  Hload Hi Hin) as (before & after & r & Hsplit & Hr).
      eexists. split; [exact Hr |].
      unfold to_csv. cbn [lines]. rewrite length_map, values_mk, length_map.
      rewrite Hsplit in Hsort. rewrite !length_app in *. simpl in *. lia.
    + destruct (render_delete_splits parse_datetime (Some f) df now limit i Hload Hi Hin)
        as (before & after & r & Hsplit & Hr).
      eexists. split; [exact Hr |].
      unfold to_csv. cbn [lines]. rewrite length_map, values_mk, length_map.
      rewrite Hsplit in Hsort. rewrite !length_app in *. simpl in *. lia.
Qed.

Lemma mutation_drops_undated_lines_witness :
  exists f' : CsvFile,
    render iso_datetime (Some undated_tail_file) mid_march 5000
           (UpdateSubmitted 0 500 Income "Salary" day_0302) = Ok (Some f', Rerun) /\
    List.length (lines undated_tail_file) = 2%nat /\
    List.length (lines f') = 1%nat.
Proof.
  destruct (mutation_drops_undated_lines iso_datetime undated_tail_file
              {| columns := base_columns;
                 rows := load_spec iso_datetime false 0 (lines undated_tail_file) |}
              mid_march 5000 eq_refl) as (_ & Hmut).
  destruct (Hmut 0%nat) as (Hupd & _).
  - vm_compute. lia.
  - vm_compute. tauto.
  - destruct (Hupd 500 Income "Salary" day_0302) as (f' & Hr & Hl).
    exists f'. split; [exact Hr |]. split; [reflexivity |]. rewrite Hl. reflexivity.
Defined.
